(** * Ela Kitty: sightings map, sanctuary form and admin dashboard

    A shallow embedding of the handlers of [components/MapView.js],
    [components/SanctuaryForm.js], [components/BoundaryDrawer.js] and
    [pages/admin.js], followed by the properties of the specification
    that are stated about them.

    Conventions.  React state is threaded explicitly: a handler is a
    function from the component state (and the hosted backend) to the new
    state.  The backend is a set of tables together with the list of
    outcomes it will give to the next requests, so that a failing request
    is an input like any other.  Every request a handler issues is
    appended to a trace, in order. *)

From Stdlib Require Import ZArith QArith String Ascii List Bool Lia.
From stdpp Require Import gmap strings list pretty.

Local Open Scope string_scope.
Local Open Scope list_scope.

(* ===================================================================== *)
(** * JavaScript values and string helpers *)
(* ===================================================================== *)

Module Js.

(** The primitive values that the form fields and the table columns hold.
    Numbers are rationals: the handlers only test them for zero. *)
Inductive jsval : Type :=
| JNull
| JBool (b : bool)
| JNum (x : Q)
| JStr (s : string).

(** [!!v]: null, false, 0 and the empty string are falsy. *)
Definition truthy (v : jsval) : bool :=
  match v with
  | JNull => false
  | JBool b => b
  | JNum x => negb (Qeq_bool x 0)
  | JStr s => negb (String.eqb s "")
  end.

(** [a === b] *)
Definition strict_eq (a b : jsval) : bool :=
  match a, b with
  | JNull, JNull => true
  | JBool x, JBool y => Bool.eqb x y
  | JNum x, JNum y => Qeq_bool x y
  | JStr x, JStr y => String.eqb x y
  | _, _ => false
  end.

(** [v ?? d] *)
Definition nullish (v d : jsval) : jsval :=
  match v with JNull => d | _ => v end.

(** Strings are kept as the UTF-8 bytes of the JavaScript string, so a
    character outside ASCII takes two or three bytes.

    [String.prototype.trim] removes the white space and the line
    terminators of the language: tab, line feed, vertical tab, form feed,
    carriage return and space in the ASCII range; U+00A0 (no-break space)
    in two bytes; and in three bytes U+1680, U+2000 to U+200A, U+2028,
    U+2029, U+202F, U+205F, U+3000 and U+FEFF. *)
Definition is_ws (c : ascii) : bool :=
  let n := nat_of_ascii c in
  ((9 <=? n)%nat && (n <=? 13)%nat) || (n =? 32)%nat.

Definition is_ws2 (a b : ascii) : bool :=
  (nat_of_ascii a =? 194)%nat && (nat_of_ascii b =? 160)%nat.

Definition is_ws3 (a b c : ascii) : bool :=
  let x := nat_of_ascii a in
  let y := nat_of_ascii b in
  let z := nat_of_ascii c in
  ((x =? 225)%nat && (y =? 154)%nat && (z =? 128)%nat)
  || ((x =? 226)%nat && (y =? 128)%nat
      && (((128 <=? z)%nat && (z <=? 138)%nat)
          || (z =? 168)%nat || (z =? 169)%nat || (z =? 175)%nat))
  || ((x =? 226)%nat && (y =? 129)%nat && (z =? 159)%nat)
  || ((x =? 227)%nat && (y =? 128)%nat && (z =? 128)%nat)
  || ((x =? 239)%nat && (y =? 187)%nat && (z =? 191)%nat).

Fixpoint trimStart (s : string) : string :=
  match s with
  | String a r =>
      if is_ws a then trimStart r
      else match r with
           | String b r2 =>
               if is_ws2 a b then trimStart r2
               else match r2 with
                    | String c r3 => if is_ws3 a b c then trimStart r3 else s
                    | EmptyString => s
                    end
           | EmptyString => s
           end
  | EmptyString => EmptyString
  end.

(** [blank s]: [s] is made of white space only. *)
Fixpoint blank (s : string) : bool :=
  match s with
  | String a r =>
      if is_ws a then blank r
      else match r with
           | String b r2 =>
               if is_ws2 a b then blank r2
               else match r2 with
                    | String c r3 => is_ws3 a b c && blank r3
                    | EmptyString => false
                    end
           | EmptyString => false
           end
  | EmptyString => true
  end.

(** The longest blank suffix is cut: the text is kept up to the last byte
    after which something other than white space still follows. *)
Fixpoint trimEnd (s : string) : string :=
  match s with
  | String c r => if blank s then EmptyString else String c (trimEnd r)
  | EmptyString => EmptyString
  end.

Definition trim (s : string) : string := trimEnd (trimStart s).

(** [s.toLowerCase()] on ASCII letters. *)
Definition lower (c : ascii) : ascii :=
  let n := nat_of_ascii c in
  if ((65 <=? n)%nat && (n <=? 90)%nat) then ascii_of_nat (n + 32) else c.

Fixpoint toLowerCase (s : string) : string :=
  match s with
  | String c r => String (lower c) (toLowerCase r)
  | EmptyString => EmptyString
  end.

(** [s.includes(c)] and [s.split(c)] for a one-character separator. *)
Fixpoint includes (c : ascii) (s : string) : bool :=
  match s with
  | String d r => Ascii.eqb c d || includes c r
  | EmptyString => false
  end.

Fixpoint split (c : ascii) (s : string) : list string :=
  match s with
  | EmptyString => [EmptyString]
  | String d r =>
      if Ascii.eqb c d then EmptyString :: split c r
      else match split c r with
           | p :: ps => String d p :: ps
           | [] => [String d EmptyString]
           end
  end.

End Js.
Import Js.

(* ===================================================================== *)
(** * State-passing handlers *)
(* ===================================================================== *)

(** A handler over a state [St] that returns an [A]. *)
Definition M (St A : Type) : Type := St -> A * St.

Definition ret {St A} (a : A) : M St A := fun s => (a, s).
Definition bind {St A B} (m : M St A) (k : A -> M St B) : M St B :=
  fun s => let (a, s') := m s in k a s'.
Definition get {St} : M St St := fun s => (s, s).
Definition run {St A} (m : M St A) (s : St) : St := snd (m s).

Declare Scope handler_scope.
Delimit Scope handler_scope with handler.
Notation "x <- m ;; k" := (bind m (fun x => k))
  (at level 100, m at next level, right associativity) : handler_scope.
Notation "m ;; k" := (bind m (fun _ => k))
  (at level 100, right associativity) : handler_scope.

Local Open Scope handler_scope.

(* ===================================================================== *)
(** * Rows of the hosted tables *)
(* ===================================================================== *)

(** The signed-in account as [supabase.auth.getUser()] gives it. *)
Record User := { u_id : string; u_email : string }.

(** Table [profiles]: one role per account. *)
Record Profile := { p_id : string; p_email : string; p_role : string }.

(** Table [sightings].  [sg_user_id] is null on rows without an owner,
    [sg_visibility] is one of "public", "caregiver", "admin". *)
Record Sighting := {
  sg_id : string;
  sg_latitude : string;
  sg_longitude : string;
  sg_notes : string;
  sg_animals : Z;
  sg_behaviour : string;
  sg_photo_url : jsval;
  sg_user_id : jsval;
  sg_visibility : string;
  sg_created_at : Z
}.

(** Table [deletion_logs]. *)
Record DeletionLog := {
  dl_sighting_id : string;
  dl_user_id : string;
  dl_reason : string
}.

(** One weekday of the opening hours: the object the form edits
    ([HObj]) or the compact string that is stored ([HStr]). *)
Record Hours := { open : string; close : string; closed : bool }.

Inductive hval : Type :=
| HObj (h : Hours)
| HStr (s : string).

(** The fields of a sanctuary that no handler below reads or writes one
    by one (contact, links, logo, services). *)
Record Details := {
  contact_email : string;
  contact_phone : string;
  donate_url : string;
  website_url : string;
  facebook_url : string;
  instagram_url : string;
  twitter_url : string;
  logo_url : jsval;
  services : list string
}.

(** Table [sanctuaries]; the same object is the state of the sanctuary
    form and the payload it hands to [onSave]. *)
Record Sanctuary := {
  id : jsval;
  name : string;
  latitude : jsval;
  longitude : jsval;
  radius_km : jsval;
  boundary : jsval;
  approved : bool;
  details : Details;
  opening_hours : gmap string hval
}.

(** Table [caregiver_assignments]. *)
Record Assignment := { caregiver_id : string; sanctuary_id : jsval }.

(* ===================================================================== *)
(** * The hosted backend *)
(* ===================================================================== *)

Module Backend.

Record Db := {
  sightings : list Sighting;
  deletion_logs : list DeletionLog;
  profiles : list Profile;
  sanctuaries : list Sanctuary;
  caregiver_assignments : list Assignment;
  serial : nat
}.

(** The requests the handlers issue, as the query builder spells them. *)
Inductive Request : Type :=
| SelectSightings                                  (* from('sightings').select('*').order('created_at', desc) *)
| SelectApprovedZones                              (* from('sanctuaries').select('id, name, latitude, longitude, radius_km, boundary, logo_url').eq('approved', true) *)
| SelectApprovedCentres                            (* from('sanctuaries').select('id,name,latitude,longitude,logo_url').eq('approved', true) *)
| InsertDeletionLog (row : DeletionLog)            (* from('deletion_logs').insert([row]) *)
| DeleteSighting (sid : string)                    (* from('sightings').delete().eq('id', sid) *)
| UpdateProfileRole (pid : string) (role : string) (* from('profiles').update({role}).eq('id', pid) *)
| UpdateSanctuary (sid : jsval) (row : Sanctuary)  (* from('sanctuaries').update(row).eq('id', sid) *)
| InsertSanctuary (row : Sanctuary)                (* from('sanctuaries').insert(row).select().single() *)
| DeleteSanctuary (sid : jsval)                    (* from('sanctuaries').delete().eq('id', sid) *)
| DeleteAssignments (sid : jsval)                  (* from('caregiver_assignments').delete().eq('sanctuary_id', sid) *)
| InsertAssignments (rows : list Assignment).      (* from('caregiver_assignments').insert(rows) *)

(** The backend: its tables, what it will answer to the coming requests
    ([None]: served, [Some msg]: refused with [error.message = msg]; an
    exhausted list serves everything) and the requests received so far. *)
Record World := {
  db : Db;
  outcomes : list (option string);
  trace : list Request
}.

Definition with_id (i : jsval) (r : Sanctuary) : Sanctuary :=
  {| id := i; name := name r; latitude := latitude r; longitude := longitude r;
     radius_km := radius_km r; boundary := boundary r; approved := approved r;
     details := details r; opening_hours := opening_hours r |}.

Definition fresh_id (d : Db) : jsval := JStr (pretty (serial d)).

(** What a served request does to the tables. *)
Definition exec (r : Request) (d : Db) : Db :=
  match r with
  | SelectSightings | SelectApprovedZones | SelectApprovedCentres => d
  | InsertDeletionLog row =>
      {| sightings := sightings d; deletion_logs := deletion_logs d ++ [row];
         profiles := profiles d; sanctuaries := sanctuaries d;
         caregiver_assignments := caregiver_assignments d; serial := serial d |}
  | DeleteSighting sid =>
      {| sightings := List.filter (fun row => negb (String.eqb (sg_id row) sid)) (sightings d);
         deletion_logs := deletion_logs d;
         profiles := profiles d; sanctuaries := sanctuaries d;
         caregiver_assignments := caregiver_assignments d; serial := serial d |}
  | UpdateProfileRole pid role =>
      {| sightings := sightings d; deletion_logs := deletion_logs d;
         profiles :=
           map (fun p => if String.eqb (p_id p) pid
                         then {| p_id := p_id p; p_email := p_email p; p_role := role |}
                         else p) (profiles d);
         sanctuaries := sanctuaries d;
         caregiver_assignments := caregiver_assignments d; serial := serial d |}
  | UpdateSanctuary sid row =>
      {| sightings := sightings d; deletion_logs := deletion_logs d;
         profiles := profiles d;
         sanctuaries :=
           map (fun s => if strict_eq (id s) sid then row else s) (sanctuaries d);
         caregiver_assignments := caregiver_assignments d; serial := serial d |}
  | InsertSanctuary row =>
      {| sightings := sightings d; deletion_logs := deletion_logs d;
         profiles := profiles d;
         sanctuaries := sanctuaries d ++ [with_id (fresh_id d) row];
         caregiver_assignments := caregiver_assignments d; serial := S (serial d) |}
  | DeleteSanctuary sid =>
      {| sightings := sightings d; deletion_logs := deletion_logs d;
         profiles := profiles d;
         sanctuaries := List.filter (fun s => negb (strict_eq (id s) sid)) (sanctuaries d);
         caregiver_assignments := caregiver_assignments d; serial := serial d |}
  | DeleteAssignments sid =>
      {| sightings := sightings d; deletion_logs := deletion_logs d;
         profiles := profiles d; sanctuaries := sanctuaries d;
         caregiver_assignments :=
           List.filter (fun a => negb (strict_eq (sanctuary_id a) sid))
                       (caregiver_assignments d);
         serial := serial d |}
  | InsertAssignments rows =>
      {| sightings := sightings d; deletion_logs := deletion_logs d;
         profiles := profiles d; sanctuaries := sanctuaries d;
         caregiver_assignments := caregiver_assignments d ++ rows;
         serial := serial d |}
  end.

(** [from('profiles').select('role').eq('id', uid).single()], the query
    of the role guard. *)
Definition profile_role (d : Db) (uid : string) : option string :=
  p_role <$> List.find (fun p => String.eqb (p_id p) uid) (profiles d).

(** [await <request>]: the request reaches the backend, which serves or
    refuses it; the answer is the [error] of the response. *)
Definition request (r : Request) : M World (option string) := fun w =>
  match outcomes w with
  | Some msg :: rest =>
      (Some msg, {| db := db w; outcomes := rest; trace := trace w ++ [r] |})
  | None :: rest =>
      (None, {| db := exec r (db w); outcomes := rest; trace := trace w ++ [r] |})
  | [] =>
      (None, {| db := exec r (db w); outcomes := []; trace := trace w ++ [r] |})
  end.

(** Whether the next request will be served. *)
Definition serves_next (w : World) : bool :=
  match outcomes w with
  | Some _ :: _ => false
  | _ => true
  end.

End Backend.
Import Backend.

(** A page: the backend it talks to, its React state, and what it has
    shown through [alert] and [console.error]. *)
Record Sys (Ui : Type) := {
  backend : World;
  ui : Ui;
  alerts : list string;
  console : list string
}.
Arguments backend {Ui} _.
Arguments ui {Ui} _.
Arguments alerts {Ui} _.
Arguments console {Ui} _.

Section Page.
Context {Ui : Type}.

Definition await {A} (q : M World A) : M (Sys Ui) A := fun s =>
  let (a, w) := q (backend s) in
  (a, {| backend := w; ui := ui s; alerts := alerts s; console := console s |}).

Definition setState (f : Ui -> Ui) : M (Sys Ui) unit := fun s =>
  (tt, {| backend := backend s; ui := f (ui s);
          alerts := alerts s; console := console s |}).

Definition alert (msg : string) : M (Sys Ui) unit := fun s =>
  (tt, {| backend := backend s; ui := ui s;
          alerts := alerts s ++ [msg]; console := console s |}).

Definition console_error (msg : string) : M (Sys Ui) unit := fun s =>
  (tt, {| backend := backend s; ui := ui s;
          alerts := alerts s; console := console s ++ [msg] |}).
End Page.

(* ===================================================================== *)
(** * components/MapView.js *)
(* ===================================================================== *)

Module MapView.

(** A row of the sanctuaries query: the selected columns
    [id, name, latitude, longitude, radius_km, boundary, logo_url]. *)
Record Zone := {
  z_id : jsval;
  z_name : string;
  z_latitude : jsval;
  z_longitude : jsval;
  z_radius_km : jsval;
  z_boundary : jsval;
  z_logo_url : jsval
}.

(** An entry of the [sanctuaries] state: marker centres. *)
Record Marker := {
  m_id : jsval;
  m_name : string;
  m_lat : jsval;
  m_lng : jsval;
  m_logo : jsval
}.

Record State := {
  user : option User;
  sightings : list Sighting;
  zones : list Zone;
  sanctuaries : list Marker
}.

(** The state on mount: [useState(null)], [useState([])]. *)
Definition initial : State :=
  {| user := None; sightings := []; zones := []; sanctuaries := [] |}.

(** The page as it mounts over a backend. *)
Definition mount (w : World) : Sys State :=
  {| backend := w; ui := initial; alerts := []; console := [] |}.

Definition setUser (u : User) (st : State) : State :=
  {| user := Some u; sightings := sightings st;
     zones := zones st; sanctuaries := sanctuaries st |}.
Definition setSightings (f : list Sighting -> list Sighting) (st : State) : State :=
  {| user := user st; sightings := f (sightings st);
     zones := zones st; sanctuaries := sanctuaries st |}.
Definition setZones (zs : list Zone) (st : State) : State :=
  {| user := user st; sightings := sightings st;
     zones := zs; sanctuaries := sanctuaries st |}.
Definition setSanctuaries (ms : list Marker) (st : State) : State :=
  {| user := user st; sightings := sightings st;
     zones := zones st; sanctuaries := ms |}.

(** ** The two queries of the initial fetch *)

(** [.order('created_at', { ascending: false })] *)
Fixpoint insert_desc (s : Sighting) (l : list Sighting) : list Sighting :=
  match l with
  | [] => [s]
  | t :: r =>
      if (sg_created_at t <? sg_created_at s)%Z then s :: l
      else t :: insert_desc s r
  end.

Definition order_created_at_desc (l : list Sighting) : list Sighting :=
  fold_right insert_desc [] l.

(** [from('sightings').select('*').order(...)]: every column of every
    row; the request carries no condition on [visibility], on [user_id]
    or on the viewer. *)
Definition select_sightings : M World (option (list Sighting)) :=
  e <- request SelectSightings ;;
  w <- get ;;
  ret (match e with
       | Some _ => None
       | None => Some (order_created_at_desc (Backend.sightings (db w)))
       end).

Definition zone_of (s : Sanctuary) : Zone :=
  {| z_id := id s; z_name := name s;
     z_latitude := latitude s; z_longitude := longitude s;
     z_radius_km := radius_km s; z_boundary := boundary s;
     z_logo_url := logo_url (details s) |}.

(** [from('sanctuaries').select('id, name, ...').eq('approved', true)] *)
Definition select_approved_zones : M World (option (list Zone)) :=
  e <- request SelectApprovedZones ;;
  w <- get ;;
  ret (match e with
       | Some _ => None
       | None =>
           Some (map zone_of
                   (List.filter (fun s => Bool.eqb (approved s) true)
                                (Backend.sanctuaries (db w))))
       end).

Definition marker_of (z : Zone) : Marker :=
  {| m_id := z_id z; m_name := z_name z;
     m_lat := z_latitude z; m_lng := z_longitude z; m_logo := z_logo_url z |}.

(** The effect that runs once on mount; [currentUser] is what
    [supabase.auth.getUser()] yields. *)
Definition initial_fetch (currentUser : option User) : M (Sys State) unit :=
  (match currentUser with
   | Some u => setState (setUser u)
   | None => ret tt
   end) ;;
  sData <- await select_sightings ;;
  (match sData with
   | Some rows => setState (setSightings (fun _ => rows))
   | None => ret tt
   end) ;;
  zData <- await select_approved_zones ;;
  match zData with
  | Some zs =>
      setState (setZones zs) ;;
      setState (setSanctuaries (map marker_of zs))
  | None => ret tt
  end.

(** ** Deleting a sighting

    [answer] is what [window.prompt] returns: [None] when the dialog is
    dismissed.  The [error] of neither response is looked at. *)
Definition handleDelete (s : Sighting) (answer : option string)
  : M (Sys State) unit :=
  st <- get ;;
  match user (ui st) with
  | None => alert "Log in first"
  | Some u =>
      match answer with
      | None => ret tt
      | Some reason =>
          if negb (truthy (JStr reason)) then ret tt
          else
            _ <- await (request (InsertDeletionLog
                   {| dl_sighting_id := sg_id s; dl_user_id := u_id u;
                      dl_reason := reason |})) ;;
            _ <- await (request (DeleteSighting (sg_id s))) ;;
            setState (setSightings
              (List.filter (fun row => negb (String.eqb (sg_id row) (sg_id s)))))
      end
  end.

(** ** What is drawn *)

(** A service area on the map: [<GeoJSON data={JSON.parse(src)}>] or
    [<Circle center={[lat, lng]} radius={Number(km) * 1000}>], each with
    the operands it is built from. *)
Inductive Shape : Type :=
| GeoJSONLayer (key : jsval) (src : jsval)
| CircleLayer (key : jsval) (lat lng : jsval) (km : jsval).

Definition render_zone (z : Zone) : Shape :=
  if truthy (z_boundary z)
  then GeoJSONLayer (z_id z) (z_boundary z)
  else CircleLayer (z_id z) (z_latitude z) (z_longitude z) (z_radius_km z).

Definition render_zones (st : State) : list Shape := map render_zone (zones st).

(** [user && s.user_id === user.id]: the guard of the Delete button. *)
Definition canDelete (viewer : option User) (s : Sighting) : bool :=
  match viewer with
  | None => false
  | Some u => strict_eq (sg_user_id s) (JStr (u_id u))
  end.



End MapView.

(* ===================================================================== *)
(** * components/MapView.js, first revision (deletion with checked errors) *)
(* ===================================================================== *)

Module MapViewV1.
Import MapView.

Definition handleDelete (sighting : Sighting) (answer : option string)
  : M (Sys State) unit :=
  st <- get ;;
  match user (ui st) with
  | None => alert "You must be logged in to delete a sighting."
  | Some u =>
      let missing :=
        match answer with
        | None => true
        | Some reason =>
            negb (truthy (JStr reason)) || String.eqb (trim reason) ""
        end in
      if missing then alert "Deletion cancelled: reason is required."
      else
        let reason := match answer with Some r => r | None => "" end in
        logError <- await (request (InsertDeletionLog
               {| dl_sighting_id := sg_id sighting; dl_user_id := u_id u;
                  dl_reason := trim reason |})) ;;
        match logError with
        | Some msg =>
            console_error ("Error logging deletion: " +:+ msg) ;;
            alert "Failed to log deletion. Aborting."
        | None =>
            deleteError <- await (request (DeleteSighting (sg_id sighting))) ;;
            match deleteError with
            | Some msg =>
                console_error ("Deletion error: " +:+ msg) ;;
                alert "Failed to delete sighting. Try again."
            | None =>
                setState (setSightings
                  (List.filter
                     (fun s => negb (String.eqb (sg_id s) (sg_id sighting)))))
            end
        end
  end.

End MapViewV1.

(* ===================================================================== *)
(** * components/MapView.js, revision with sanctuary markers only *)
(* ===================================================================== *)

Module MapViewV2.
Import MapView.

(** A row of its sanctuaries query: [id, name, latitude, longitude,
    logo_url]. *)
Record Centre := {
  c_id : jsval;
  c_name : string;
  c_latitude : jsval;
  c_longitude : jsval;
  c_logo_url : jsval
}.

Definition centre_of (s : Sanctuary) : Centre :=
  {| c_id := id s; c_name := name s;
     c_latitude := latitude s; c_longitude := longitude s;
     c_logo_url := logo_url (details s) |}.

Definition select_approved_centres : M World (option (list Centre)) :=
  e <- request SelectApprovedCentres ;;
  w <- get ;;
  ret (match e with
       | Some _ => None
       | None =>
           Some (map centre_of
                   (List.filter (fun s => Bool.eqb (approved s) true)
                                (Backend.sanctuaries (db w))))
       end).

Section Library.
(** [parseFloat] *)
Variable parseFloat : jsval -> jsval.

Definition marker_of (r : Centre) : Marker :=
  {| m_id := c_id r; m_name := c_name r;
     m_lat := parseFloat (c_latitude r); m_lng := parseFloat (c_longitude r);
     m_logo := c_logo_url r |}.

Definition initial_fetch (me : option User) : M (Sys State) unit :=
  (match me with
   | Some u => setState (setUser u)
   | None => ret tt
   end) ;;
  s <- await select_sightings ;;
  (match s with
   | Some rows => setState (setSightings (fun _ => rows))
   | None => ret tt
   end) ;;
  z <- await select_approved_centres ;;
  match z with
  | Some rs => setState (setSanctuaries (map marker_of rs))
  | None => ret tt
  end.
End Library.

End MapViewV2.

(* ===================================================================== *)
(** * components/BoundaryDrawer.js *)
(* ===================================================================== *)

Module BoundaryDrawer.

(** What [layer.toGeoJSON()] gives for a drawn polygon (the only shape
    the draw control offers): a Feature whose geometry is a Polygon, as
    rings of [[longitude, latitude]] positions.  The conversion rounds
    every coordinate to six decimals, so a coordinate is kept as a whole
    number of millionths of a degree. *)
Record GeoJSON := { coordinates : list (list (Z * Z)) }.

(** A map layer, known by its conversion. *)
Record Layer := { toGeoJSON : GeoJSON }.

(** The event of the draw control: [draw:edited] carries the group of
    edited layers in [e.layers], [draw:created] carries the new layer in
    [e.layer]; the other property is undefined. *)
Record DrawEvent := { layers : option (list Layer); layer : option Layer }.

Inductive SaveResult : Type :=
| OnSave (gj : GeoJSON)   (* onSave(gj) was called *)
| TypeError.              (* a property of undefined was read *)

(** [const layer = e.layers.getLayers()[0] || e.layer;
     const gj = layer.toGeoJSON(); onSave(gj);] *)
Definition _save (e : DrawEvent) : SaveResult :=
  match layers e with
  | None => TypeError
  | Some ls =>
      match (match ls with l :: _ => Some l | [] => layer e end) with
      | Some l => OnSave (toGeoJSON l)
      | None => TypeError
      end
  end.

(** ** The degenerate shapes of the specification

    Vertices are counted on the outer ring up to equality of
    coordinates; the enclosed area is the shoelace sum of the ring. *)
Definition pos_eqb (p q : Z * Z) : bool :=
  (fst p =? fst q)%Z && (snd p =? snd q)%Z.

Fixpoint distinct (l : list (Z * Z)) : list (Z * Z) :=
  match l with
  | [] => []
  | p :: r => if existsb (pos_eqb p) r then distinct r else p :: distinct r
  end.

Definition outer_ring (gj : GeoJSON) : list (Z * Z) :=
  match coordinates gj with r :: _ => r | [] => [] end.

Definition distinct_vertices (gj : GeoJSON) : nat :=
  List.length (distinct (outer_ring gj)).

Fixpoint shoelace (first : Z * Z) (l : list (Z * Z)) : Z :=
  match l with
  | [] => 0
  | [p] => fst p * snd first - fst first * snd p
  | p :: ((q :: _) as r) => fst p * snd q - fst q * snd p + shoelace first r
  end.

Definition twice_area (gj : GeoJSON) : Z :=
  match outer_ring gj with
  | [] => 0
  | p :: _ => shoelace p (outer_ring gj)
  end.

Definition degenerate (gj : GeoJSON) : bool :=
  (distinct_vertices gj <? 3)%nat || (twice_area gj =? 0)%Z.

End BoundaryDrawer.

(* ===================================================================== *)
(** * components/SanctuaryForm.js *)
(* ===================================================================== *)

Module SanctuaryForm.
Import BoundaryDrawer.

(** weekdays for the opening-hours grid *)
Definition DAYS : list string :=
  ["Mon"; "Tue"; "Wed"; "Thu"; "Fri"; "Sat"; "Sun"].

Definition def : Hours :=
  {| open := "09:00"; close := "17:00"; closed := false |}.

(** [sanctuary.opening_hours] as the form receives it: absent (falsy),
    an object keyed by weekday, or a non-empty text, which is known by
    what [JSON.parse] makes of it ([None]: it throws). *)
Inductive RawHours : Type :=
| RawAbsent
| RawObject (j : gmap string hval)
| RawText (parsed : option (gmap string hval)).

Definition hours_of_entry (v : option hval) : Hours :=
  match v with
  | Some (HStr s) =>
      if String.eqb s "closed"
      then {| open := open def; close := close def; closed := true |}
      else if includes "-" s then
        match split "-" s with
        | o :: c :: _ => {| open := o; close := c; closed := false |}
        | _ => def
        end
      else def
  | _ => def
  end.

Definition hours_of_day (raw : RawHours) (k : string) : Hours :=
  match raw with
  | RawAbsent => def
  | RawText None => def
  | RawObject j | RawText (Some j) => hours_of_entry (j !! k)
  end.

(** build the user-friendly opening-hours object *)
Definition toHoursObj (raw : RawHours) : gmap string Hours :=
  fold_left
    (fun out d => let k := toLowerCase d in <[k := hours_of_day raw k]> out)
    DAYS ∅.

(** [h.closed ? 'closed' : `${h.open}-${h.close}`]; on a string both
    properties read as undefined. *)
Definition compact (h : hval) : string :=
  match h with
  | HObj h => if closed h then "closed" else open h +:+ "-" +:+ close h
  | HStr _ => "undefined-undefined"
  end.

(** convert the opening-hours object to compact JSON; [None] when a
    weekday is missing from the object ([h.closed] of undefined). *)
Definition compact_hours (oh : gmap string hval) : option (gmap string hval) :=
  fold_left
    (fun acc d =>
       let k := toLowerCase d in
       match acc, oh !! k with
       | Some hrs, Some h => Some (<[k := HStr (compact h)]> hrs)
       | _, _ => None
       end)
    DAYS (Some ∅).

(** The keys of both objects, and what a weekday reads as once it has
    been through the compact form: a closed day keeps no times of its
    own. *)
Definition keys : list string := map toLowerCase DAYS.

Definition restore (h : Hours) : Hours :=
  if closed h
  then {| open := open def; close := close def; closed := true |}
  else h.

Definition dash_free (h : Hours) : bool :=
  negb (includes "-" (open h)) && negb (includes "-" (close h)).

(** ** Form state *)

Definition set_position (lat lng : jsval) (f : Sanctuary) : Sanctuary :=
  {| id := id f; name := name f; latitude := lat; longitude := lng;
     radius_km := radius_km f; boundary := boundary f; approved := approved f;
     details := details f; opening_hours := opening_hours f |}.

Definition set_radius_km (v : jsval) (f : Sanctuary) : Sanctuary :=
  {| id := id f; name := name f; latitude := latitude f; longitude := longitude f;
     radius_km := v; boundary := boundary f; approved := approved f;
     details := details f; opening_hours := opening_hours f |}.

Definition set_boundary (v : jsval) (f : Sanctuary) : Sanctuary :=
  {| id := id f; name := name f; latitude := latitude f; longitude := longitude f;
     radius_km := radius_km f; boundary := v; approved := approved f;
     details := details f; opening_hours := opening_hours f |}.

Definition set_opening_hours (oh : gmap string hval) (f : Sanctuary) : Sanctuary :=
  {| id := id f; name := name f; latitude := latitude f; longitude := longitude f;
     radius_km := radius_km f; boundary := boundary f; approved := approved f;
     details := details f; opening_hours := oh |}.

Record State := {
  form : Sanctuary;
  assigned : list string;
  mode : string;            (* radius | polygon *)
  address : string;
  searching : bool;
  drawOpen : bool
}.

Definition setForm (g : Sanctuary -> Sanctuary) (st : State) : State :=
  {| form := g (form st); assigned := assigned st; mode := mode st;
     address := address st; searching := searching st; drawOpen := drawOpen st |}.
Definition setSearching (b : bool) (st : State) : State :=
  {| form := form st; assigned := assigned st; mode := mode st;
     address := address st; searching := b; drawOpen := drawOpen st |}.
Definition setDrawOpen (b : bool) (st : State) : State :=
  {| form := form st; assigned := assigned st; mode := mode st;
     address := address st; searching := searching st; drawOpen := b |}.
Definition setMode (m : string) (st : State) : State :=
  {| form := form st; assigned := assigned st; mode := m;
     address := address st; searching := searching st; drawOpen := drawOpen st |}.

(** The state the form opens in, on an existing row or on a blank one:
    [useState(() => ({ id: sanctuary.id ?? null, ... }))], the caregiver
    ids of the joined [caregiver_assignments] when the row has them, and
    the mode after the row's boundary. *)
Definition init (sanctuary : Sanctuary) (joined : option (list Assignment)) : State :=
  {| form :=
       {| id := nullish (id sanctuary) JNull;
          name := name sanctuary;
          latitude := nullish (latitude sanctuary) (JStr "");
          longitude := nullish (longitude sanctuary) (JStr "");
          radius_km := nullish (radius_km sanctuary) (JNum 5);
          boundary := nullish (boundary sanctuary) JNull;
          approved := approved sanctuary;
          details := details sanctuary;
          opening_hours :=
            HObj <$> toHoursObj (RawObject (opening_hours sanctuary)) |};
     assigned :=
       match joined with
       | Some rows => map caregiver_id rows
       | None => []
       end;
     mode := if truthy (boundary sanctuary) then "polygon" else "radius";
     address := ""; searching := false; drawOpen := false |}.

(** A hit of the address search. *)
Record Place := { lat : string; lon : string }.

(** What the search request comes back with: [fetch] or [res.json()]
    throws, or a list of places. *)
Inductive Reply : Type :=
| Failed
| Places (data : list Place).

(** ** [JSON.stringify] of a GeoJSON polygon feature

    Members in the order the conversion creates them; a coordinate is
    printed as the shortest decimal of its millionths. *)
Definition dq : string := String "034"%char EmptyString.
Definition quoted (s : string) : string := dq +:+ s +:+ dq.

Definition digit (n : Z) : ascii := ascii_of_nat (48 + Z.to_nat (n mod 10)).

Fixpoint drop_zeros (l : list ascii) : list ascii :=
  match l with
  | [] => []
  | c :: r =>
      match drop_zeros r with
      | [] => if Ascii.eqb c "0" then [] else [c]
      | r' => c :: r'
      end
  end.

Definition fraction (f : Z) : string :=
  match drop_zeros (map (fun p => digit (f / p)) [100000; 10000; 1000; 100; 10; 1]%Z) with
  | [] => ""
  | ds => "." +:+ string_of_list_ascii ds
  end.

Definition number (z : Z) : string :=
  let a := Z.abs z in
  (if (z <? 0)%Z then "-" else "")
    +:+ pretty (Z.to_N (a / 1000000)) +:+ fraction (a mod 1000000).

Definition joined (l : list string) : string :=
  match l with
  | [] => ""
  | x :: r => fold_left (fun acc y => acc +:+ "," +:+ y) r x
  end.

Definition array (l : list string) : string := "[" +:+ joined l +:+ "]".

Definition JSON_stringify (gj : GeoJSON) : string :=
  "{" +:+ quoted "type" +:+ ":" +:+ quoted "Feature" +:+ ","
      +:+ quoted "properties" +:+ ":{},"
      +:+ quoted "geometry" +:+ ":{"
      +:+ quoted "type" +:+ ":" +:+ quoted "Polygon" +:+ ","
      +:+ quoted "coordinates" +:+ ":"
      +:+ array (map (fun ring =>
                   array (map (fun p => array [number (fst p); number (snd p)]) ring))
                 (coordinates gj))
      +:+ "}}".

(** ** the [onSave] handed to the polygon drawer *)
Definition drawer_onSave (gj : GeoJSON) (st : State) : State :=
  setDrawOpen false
    (setForm (fun _ => set_boundary (JStr (JSON_stringify gj)) (form st)) st).

Section Library.
(** [x => Number(x).toFixed(6)] *)
Variable toFixed6 : string -> string.

(** ** geocode helper *)
Definition geocode (reply : Reply) : M (Sys State) unit :=
  st <- get ;;
  if negb (truthy (JStr (trim (address (ui st))))) then ret tt
  else
    setState (setSearching true) ;;
    (match reply with
     | Places data =>
         match data with
         | [] => alert "No result"
         | p :: _ =>
             setState (setForm (set_position (JStr (toFixed6 (lat p)))
                                             (JStr (toFixed6 (lon p)))))
         end
     | Failed => alert "Geocoding failed"
     end) ;;
    setState (setSearching false).
End Library.

(** ** submit *)

Inductive Submit : Type :=
| Alerted (msg : string)                               (* return alert(msg) *)
| Saved (payload : Sanctuary) (ids : list string)      (* onSave(form, assigned) *)
| Thrown.                                              (* TypeError *)

(** The checks, and the geometry that survives them.  The form object is
    assigned to in place, so the state after the call is returned along
    with what happened. *)
Definition pick_geometry (md : string) (f : Sanctuary) : string + Sanctuary :=
  if String.eqb md "radius" then
    if negb (truthy (radius_km f)) then inl "Radius required"
    else inr (set_boundary JNull f)
  else
    if negb (truthy (boundary f)) then inl "Draw polygon first"
    else inr (set_radius_km JNull f).

Definition handleSubmit (st : State) : Submit * State :=
  let f := form st in
  if negb (truthy (JStr (trim (name f)))) then (Alerted "Name required", st)
  else if negb (truthy (latitude f)) || negb (truthy (longitude f))
  then (Alerted "Location required", st)
  else
    match pick_geometry (mode st) f with
    | inl msg => (Alerted msg, st)
    | inr f1 =>
        match compact_hours (opening_hours f1) with
        | None => (Thrown, setForm (fun _ => f1) st)
        | Some hrs =>
            let f2 := set_opening_hours hrs f1 in
            (Saved f2 (assigned st), setForm (fun _ => f2) st)
        end
    end.

End SanctuaryForm.

(* ===================================================================== *)
(** * pages/admin.js *)
(* ===================================================================== *)

Module Admin.

Record State := {
  myRole : option string;              (* 'admin' | 'caregiver', null before the guard *)
  editSanctuary : option Sanctuary;    (* drawer state, null = closed *)
  refreshKey : Z
}.

Definition setEditSanctuary (e : option Sanctuary) (st : State) : State :=
  {| myRole := myRole st; editSanctuary := e; refreshKey := refreshKey st |}.
Definition setRefreshKey (f : Z -> Z) (st : State) : State :=
  {| myRole := myRole st; editSanctuary := editSanctuary st;
     refreshKey := f (refreshKey st) |}.

(** [myRole !== 'admin'] *)
Definition not_admin (st : State) : bool :=
  match myRole st with
  | Some r => negb (String.eqb r "admin")
  | None => true
  end.

(** [insert(row).select().single()]: the error, or the id of the new row. *)
Definition insert_sanctuary (row : Sanctuary) : M World (string + jsval) :=
  w <- get ;;
  e <- request (InsertSanctuary row) ;;
  ret (match e with
       | Some msg => inl msg
       | None => inr (fresh_id (db w))
       end).

(** Users tab: role switch *)
Definition switchRole (uid newRole : string) : M (Sys State) unit :=
  st <- get ;;
  if not_admin (ui st) then ret tt
  else
    _ <- await (request (UpdateProfileRole uid newRole)) ;;
    setState (setRefreshKey (fun k => k + 1)%Z).

(** insert caregiver links, close the drawer, refetch *)
Definition link_caregivers (sid : jsval) (assignedCaregiverIds : list string)
  : M (Sys State) unit :=
  (match assignedCaregiverIds with
   | [] => ret tt
   | _ :: _ =>
       let rows :=
         map (fun cid => {| caregiver_id := cid; sanctuary_id := sid |})
             assignedCaregiverIds in
       _ <- await (request (InsertAssignments rows)) ;; ret tt
   end) ;;
  setState (setEditSanctuary None) ;;
  setState (setRefreshKey (fun k => k + 1)%Z).

(** Sanctuaries CRUD helpers *)
Definition saveSanctuary (sanctuary : Sanctuary) (assignedCaregiverIds : list string)
  : M (Sys State) unit :=
  st <- get ;;
  if not_admin (ui st) then ret tt
  else
    let sid := id sanctuary in
    if truthy sid then
      _ <- await (request (UpdateSanctuary sid sanctuary)) ;;
      _ <- await (request (DeleteAssignments sid)) ;;
      link_caregivers sid assignedCaregiverIds
    else
      r <- await (insert_sanctuary sanctuary) ;;
      match r with
      | inl msg => alert msg
      | inr new_id => link_caregivers new_id assignedCaregiverIds
      end.

(** [confirmed] is the answer to the [confirm] dialog. *)
Definition deleteSanctuary (sid : jsval) (confirmed : bool) : M (Sys State) unit :=
  st <- get ;;
  if not_admin (ui st) then ret tt
  else if negb confirmed then ret tt
  else
    _ <- await (request (DeleteSanctuary sid)) ;;
    setState (setRefreshKey (fun k => k + 1)%Z).

End Admin.

(* ===================================================================== *)
(** * Concrete pages and rows used in the examples below *)
(* ===================================================================== *)

Module DeleteScenario.
Import MapView.

Definition owner : User := {| u_id := "u-1"; u_email := "ann@example.org" |}.

Definition cat : Sighting :=
  {| sg_id := "s-1"; sg_latitude := "38.83"; sg_longitude := "20.7";
     sg_notes := "grey tabby"; sg_animals := 1; sg_behaviour := "normal";
     sg_photo_url := JNull; sg_user_id := JStr "u-1";
     sg_visibility := "public"; sg_created_at := 100 |}.

Definition tables : Db :=
  {| Backend.sightings := [cat]; deletion_logs := []; profiles := [];
     Backend.sanctuaries := []; caregiver_assignments := []; serial := 0 |}.

(** The owner is signed in, the row is on the map, and the backend will
    refuse the next request (the insert into [deletion_logs]). *)
Definition page : Sys State :=
  {| backend := {| db := tables; outcomes := [Some "permission denied"]; trace := [] |};
     ui := {| user := Some owner; sightings := [cat]; zones := []; sanctuaries := [] |};
     alerts := []; console := [] |}.

End DeleteScenario.

Module VisibilityScenario.
Import MapView.


(** A report that its owner [ann] marked "Admins only". *)
Definition secret : Sighting :=
  {| sg_id := "s-7"; sg_latitude := "38.8"; sg_longitude := "20.71";
     sg_notes := "injured kitten"; sg_animals := 1; sg_behaviour := "injured";
     sg_photo_url := JNull; sg_user_id := JStr "u-1";
     sg_visibility := "admin"; sg_created_at := 250 |}.

Definition tables : Db :=
  {| Backend.sightings := [secret]; deletion_logs := [];
     profiles := [ {| p_id := "u-1"; p_email := "ann@example.org"; p_role := "user" |};
                   {| p_id := "u-2"; p_email := "bob@example.org"; p_role := "user" |};
                   {| p_id := "u-3"; p_email := "eve@example.org"; p_role := "admin" |} ];
     Backend.sanctuaries := []; caregiver_assignments := []; serial := 0 |}.

Definition eve : User := {| u_id := "u-3"; u_email := "eve@example.org" |}.

(** The map page as it mounts, every request served. *)
Definition page : Sys State :=
  {| backend := {| db := tables; outcomes := []; trace := [] |};
     ui := initial; alerts := []; console := [] |}.

End VisibilityScenario.

Module AdminScenario.

(** The dashboard as a caregiver sees it. *)
Definition page : Sys Admin.State :=
  {| backend := {| db := VisibilityScenario.tables; outcomes := []; trace := [] |};
     ui := {| Admin.myRole := Some "caregiver"; Admin.editSanctuary := None;
              Admin.refreshKey := 0 |};
     alerts := []; console := [] |}.

End AdminScenario.

Module FormScenario.
Import SanctuaryForm BoundaryDrawer.

Definition about : Details :=
  {| contact_email := "cats@example.org"; contact_phone := "";
     donate_url := ""; website_url := ""; facebook_url := "";
     instagram_url := ""; twitter_url := ""; logo_url := JStr "";
     services := ["tnr"] |}.

(** Sanctuary B as stored: centre (38.8, 20.7), radius 5 km, no
    polygon, no opening hours yet. *)
Definition haven : Sanctuary :=
  {| id := JStr "b-1"; name := "Lefkas Cat Haven";
     latitude := JStr "38.800000"; longitude := JStr "20.700000";
     radius_km := JNum 5; boundary := JNull; approved := true;
     details := about; opening_hours := ∅ |}.

(** A draft nobody approved yet. *)
Definition draft : Sanctuary :=
  {| id := JStr "b-2"; name := "Nidri Strays";
     latitude := JStr "38.710000"; longitude := JStr "20.710000";
     radius_km := JNum 3; boundary := JNull; approved := false;
     details := about; opening_hours := ∅ |}.

(** The form opened on B, with its one caregiver. *)
Definition editing : State :=
  init haven (Some [ {| caregiver_id := "u-9"; sanctuary_id := JStr "b-1" |} ]).

(** A quadrilateral around the centre, ring closed. *)
Definition quad : GeoJSON :=
  {| coordinates :=
       [[(20690000, 38790000); (20710000, 38790000); (20710000, 38810000);
         (20690000, 38810000); (20690000, 38790000)]]%Z |}.

(** Three vertices dragged onto one parallel: no area. *)
Definition flat : GeoJSON :=
  {| coordinates :=
       [[(20690000, 38790000); (20700000, 38790000); (20710000, 38790000);
         (20690000, 38790000)]]%Z |}.

(** Two vertices dragged onto the third one's neighbour: two distinct
    vertices. *)
Definition pinched : GeoJSON :=
  {| coordinates :=
       [[(20690000, 38790000); (20710000, 38810000); (20710000, 38810000);
         (20690000, 38790000)]]%Z |}.

(** [draw:edited] with one edited layer; [draw:created] with the new one. *)
Definition edited (gj : GeoJSON) : DrawEvent :=
  {| layers := Some [ {| toGeoJSON := gj |} ]; layer := None |}.
Definition created (gj : GeoJSON) : DrawEvent :=
  {| layers := None; layer := Some {| toGeoJSON := gj |} |}.

(** B switches to a polygon: the mode is set and the shape is drawn. *)
Definition switched (gj : GeoJSON) : State :=
  drawer_onSave gj (setMode "polygon" editing).

(** The sanctuaries table with B and the draft. *)
Definition tables : Db :=
  {| Backend.sightings := []; deletion_logs := []; profiles := [];
     Backend.sanctuaries := [haven; draft]; caregiver_assignments := [];
     serial := 2 |}.

Definition world : World := {| db := tables; outcomes := []; trace := [] |}.

(** The dashboard of an administrator over these tables. *)
Definition dashboard : Sys Admin.State :=
  {| backend := world;
     ui := {| Admin.myRole := Some "admin"; Admin.editSanctuary := Some haven;
              Admin.refreshKey := 0 |};
     alerts := []; console := [] |}.

(** What the form hands to [onSave], if anything. *)
Definition saved (r : Submit * State) : option (Sanctuary * list string) :=
  match fst r with
  | Saved payload ids => Some (payload, ids)
  | _ => None
  end.

(** B is switched to the quadrilateral and saved by the administrator;
    then the map is opened over the resulting tables. *)
Definition after_switch : Sys Admin.State :=
  match saved (handleSubmit (switched quad)) with
  | Some (payload, ids) => run (Admin.saveSanctuary payload ids) dashboard
  | None => dashboard
  end.

Definition map_after_switch : MapView.State :=
  ui (run (MapView.initial_fetch None)
          (MapView.mount {| db := db (backend after_switch);
                            outcomes := []; trace := [] |})).

(** Monday set to 10:00-18:00 and then ticked closed. *)
Definition monday_off : gmap string Hours :=
  <["mon" := {| open := "10:00"; close := "18:00"; closed := true |}]>
    (toHoursObj RawAbsent).

(** Saturday shortened, Sunday closed with the times it came with. *)
Definition weekend : gmap string Hours :=
  <["sat" := {| open := "10:00"; close := "14:00"; closed := false |}]>
    (<["sun" := {| open := "09:00"; close := "17:00"; closed := true |}]>
       (toHoursObj RawAbsent)).

End FormScenario.

(* ===================================================================== *)
(** * components/SanctuaryForm.js: pickers, location button, reopening *)
(* ===================================================================== *)

Module FormControls.
Import SanctuaryForm.

(** [p.includes(x) ? p.filter((y) => y !== x) : [...p, x]], the
    expression of both [toggleCaregiver] and [toggleService]. *)
Definition toggled (x : string) (p : list string) : list string :=
  if existsb (String.eqb x) p
  then List.filter (fun y => negb (String.eqb y x)) p
  else p ++ [x].

Definition setAssigned (g : list string -> list string) (st : State) : State :=
  {| form := form st; assigned := g (assigned st); mode := mode st;
     address := address st; searching := searching st; drawOpen := drawOpen st |}.
Definition setAddress (a : string) (st : State) : State :=
  {| form := form st; assigned := assigned st; mode := mode st;
     address := a; searching := searching st; drawOpen := drawOpen st |}.

Definition set_services (v : list string) (f : Sanctuary) : Sanctuary :=
  {| id := id f; name := name f; latitude := latitude f; longitude := longitude f;
     radius_km := radius_km f; boundary := boundary f; approved := approved f;
     details :=
       {| contact_email := contact_email (details f);
          contact_phone := contact_phone (details f);
          donate_url := donate_url (details f);
          website_url := website_url (details f);
          facebook_url := facebook_url (details f);
          instagram_url := instagram_url (details f);
          twitter_url := twitter_url (details f);
          logo_url := logo_url (details f);
          services := v |};
     opening_hours := opening_hours f |}.

Definition toggleCaregiver (cid : string) (st : State) : State :=
  setAssigned (toggled cid) st.

Definition toggleService (key : string) (st : State) : State :=
  setForm (fun f => set_services (toggled key (services (details f))) f) st.

(** What the browser answers to [getCurrentPosition]: no geolocation at
    all, the error callback, or a position; and what the reverse lookup
    comes back with: a thrown fetch, or an answer with or without a
    [display_name]. *)
Inductive Geolocation : Type :=
| Unsupported
| Unavailable
| Position (lat lon : Q).

Inductive Reverse : Type :=
| ReverseFailed
| ReverseAnswer (display_name : option string).

Section Library.
(** [x => x.toFixed(6)] on a number *)
Variable toFixed6 : Q -> string.

Definition useMyLocation (geo : Geolocation) (reverse : Reverse)
  : M (Sys State) unit :=
  match geo with
  | Unsupported => alert "Geolocation unsupported"
  | Unavailable => alert "Unable to fetch location"
  | Position lat lon =>
      setState (setForm (set_position (JStr (toFixed6 lat)) (JStr (toFixed6 lon)))) ;;
      match reverse with
      | ReverseAnswer (Some shown) =>
          if truthy (JStr shown) then setState (setAddress shown) else ret tt
      | _ => ret tt
      end
  end.
End Library.

(** Every weekday has an entry in the form's opening hours. *)
Definition week_complete (st : State) : Prop :=
  forall k, k ∈ keys -> is_Some (opening_hours (form st) !! k).

(** A stored compact string in one of the two shapes [handleSubmit]
    writes from an object: the literal, or two parts around one dash. *)
Definition stored_ok (s : string) : bool :=
  String.eqb s "closed"
  || match split "-" s with
     | [_; _] => true
     | _ => false
     end.

End FormControls.

(* ===================================================================== *)
(** * components/SanctuaryForm.js, first revision *)
(* ===================================================================== *)

Module SanctuaryFormV1.
Import BoundaryDrawer.

(** The nine fields of its form object. *)
Record Form := {
  f_id : jsval;
  f_name : string;
  f_contact_email : string;
  f_contact_phone : string;
  f_latitude : jsval;
  f_longitude : jsval;
  f_radius_km : jsval;
  f_boundary : jsval;
  f_approved : bool
}.

Record State := {
  form : Form;
  assigned : list string;
  drawOpen : bool
}.

(** [useState({ id: sanctuary.id ?? null, ... })] *)
Definition init (sanctuary : Sanctuary) (joined : option (list Assignment)) : State :=
  {| form :=
       {| f_id := nullish (id sanctuary) JNull;
          f_name := name sanctuary;
          f_contact_email := contact_email (details sanctuary);
          f_contact_phone := contact_phone (details sanctuary);
          f_latitude := nullish (latitude sanctuary) (JStr "");
          f_longitude := nullish (longitude sanctuary) (JStr "");
          f_radius_km := nullish (radius_km sanctuary) (JNum 5);
          f_boundary := nullish (boundary sanctuary) JNull;
          f_approved := approved sanctuary |};
     assigned :=
       match joined with
       | Some rows => map caregiver_id rows
       | None => []
       end;
     drawOpen := false |}.

(** the [onSave] handed to the polygon drawer *)
Definition drawer_onSave (gj : GeoJSON) (st : State) : State :=
  {| form :=
       {| f_id := f_id (form st); f_name := f_name (form st);
          f_contact_email := f_contact_email (form st);
          f_contact_phone := f_contact_phone (form st);
          f_latitude := f_latitude (form st);
          f_longitude := f_longitude (form st);
          f_radius_km := f_radius_km (form st);
          f_boundary := JStr (SanctuaryForm.JSON_stringify gj);
          f_approved := f_approved (form st) |};
     assigned := assigned st;
     drawOpen := false |}.

Inductive Submit : Type :=
| Alerted (msg : string)
| Saved (payload : Form) (ids : list string).

Definition handleSubmit (st : State) : Submit :=
  if negb (truthy (JStr (f_name (form st))))
     || negb (truthy (f_latitude (form st)))
     || negb (truthy (f_longitude (form st)))
  then Alerted "Name and location are required"
  else Saved (form st) (assigned st).

(** The columns of a saved row that the map query selects. *)
Definition zone_of (f : Form) : MapView.Zone :=
  {| MapView.z_id := f_id f; MapView.z_name := f_name f;
     MapView.z_latitude := f_latitude f; MapView.z_longitude := f_longitude f;
     MapView.z_radius_km := f_radius_km f; MapView.z_boundary := f_boundary f;
     MapView.z_logo_url := JNull |}.

End SanctuaryFormV1.

(* ===================================================================== *)
(** * components/MapView.js: the report form *)
(* ===================================================================== *)

Module Report.

(** The tapped point, and the chosen photo known by its name. *)
Record LatLng := { lat : Q; lng : Q }.
Record File := { file_name : string }.

(** The map state together with the state of the report form. *)
Record Page := {
  map : MapView.State;
  clickedLocation : option LatLng;
  notes : string;
  isInjured : bool;
  photoFile : option File;
  visibility : string
}.

(** The object handed to [from('sightings').insert([...])]. *)
Record NewSighting := {
  n_latitude : string;
  n_longitude : string;
  n_notes : string;
  n_animals : Z;
  n_behaviour : string;
  n_photo_url : jsval;
  n_user_id : string;
  n_visibility : string
}.

(** What the handler sends out, in order. *)
Inductive Call : Type :=
| Upload (fileName : string)   (* storage.from('sightings').upload(fileName, photoFile) *)
| Insert (row : NewSighting).  (* from('sightings').insert([row]).select().single() *)

Inductive Result : Type :=
| Done (pg : Page) (alerts : list string) (calls : list Call)
| Thrown.                      (* destructuring of a null clickedLocation *)

Definition resetForm (pg : Page) : Page :=
  {| map := map pg; clickedLocation := None; notes := ""; isInjured := false;
     photoFile := None; visibility := "public" |}.

Definition addSighting (row : Sighting) (pg : Page) : Page :=
  {| map := MapView.setSightings (fun p => p ++ [row]) (map pg);
     clickedLocation := clickedLocation pg; notes := notes pg;
     isInjured := isInjured pg; photoFile := photoFile pg;
     visibility := visibility pg |}.

Section Library.
(** [x => x.toString()] on a number, and the public URL of a stored
    file. *)
Variable toString : Q -> string.
Variable getPublicUrl : string -> string.

(** [now] is [Date.now()], [uploadErr] the error of the upload response
    (looked at only when a photo was chosen) and [reply] the response of
    the insert: its error message or the new row. *)
Definition handleSubmit (now : Z) (uploadErr : option string)
           (reply : string + Sighting) (pg : Page) : Result :=
  match MapView.user (map pg) with
  | None => Done pg ["Please log in first"] []
  | Some u =>
      match clickedLocation pg with
      | None => Thrown
      | Some at_ =>
          let fileName f := pretty now +:+ "-" +:+ file_name f in
          let insert photoUrl calls :=
            let row :=
              {| n_latitude := toString (lat at_);
                 n_longitude := toString (lng at_);
                 n_notes := notes pg;
                 n_animals := 1;
                 n_behaviour := if isInjured pg then "injured" else "normal";
                 n_photo_url := photoUrl;
                 n_user_id := u_id u;
                 n_visibility := visibility pg |} in
            match reply with
            | inl msg => Done pg ["Save failed: " +:+ msg] (calls ++ [Insert row])
            | inr newRow =>
                Done (resetForm (addSighting newRow pg)) [] (calls ++ [Insert row])
            end in
          match photoFile pg with
          | None => insert JNull []
          | Some f =>
              match uploadErr with
              | Some _ => Done pg ["Photo upload failed"] [Upload (fileName f)]
              | None =>
                  insert (JStr (getPublicUrl (fileName f))) [Upload (fileName f)]
              end
          end
      end
  end.
End Library.

(** The rows a result asked to insert. *)
Definition inserts (r : Result) : list NewSighting :=
  match r with
  | Done _ _ calls =>
      flat_map (fun c => match c with Insert row => [row] | Upload _ => [] end) calls
  | Thrown => []
  end.

End Report.

(* ===================================================================== *)
(** * pages/admin.js: the caregivers of a sanctuary *)
(* ===================================================================== *)

Module Dashboard.

(** The caregiver ids that the sanctuaries query joins to the row [sid]:
    [select('*, caregiver_assignments ( caregiver_id )')]. *)
Definition assigned_to (sid : jsval) (d : Db) : list string :=
  map caregiver_id
      (List.filter (fun a => strict_eq (sanctuary_id a) sid)
                   (caregiver_assignments d)).

End Dashboard.

Module MoreScenarios.
Import SanctuaryForm.

(** Opening hours as stored for a sanctuary that closes on Sundays. *)
Definition stored_week : gmap string hval :=
  list_to_map
    [("mon", HStr "09:00-17:00"); ("tue", HStr "09:00-17:00");
     ("wed", HStr "09:00-13:00"); ("thu", HStr "09:00-17:00");
     ("fri", HStr "09:00-17:00"); ("sat", HStr "10:00-14:00");
     ("sun", HStr "closed")].

(** The form opened on sanctuary B and submitted as it is; the state and
    the payload of that first submit. *)
Definition first_submit : Submit * State := handleSubmit FormScenario.editing.
Definition once : State := snd first_submit.

(** B with three caregivers assigned, one of them to the draft as well. *)
Definition staffed : Db :=
  {| Backend.sightings := []; deletion_logs := [];
     profiles := [ {| p_id := "u-7"; p_email := "kim@example.org"; p_role := "caregiver" |};
                   {| p_id := "u-8"; p_email := "lee@example.org"; p_role := "caregiver" |};
                   {| p_id := "u-9"; p_email := "max@example.org"; p_role := "user" |} ];
     Backend.sanctuaries := [FormScenario.haven; FormScenario.draft];
     caregiver_assignments :=
       [ {| caregiver_id := "u-7"; sanctuary_id := JStr "b-1" |};
         {| caregiver_id := "u-8"; sanctuary_id := JStr "b-2" |};
         {| caregiver_id := "u-8"; sanctuary_id := JStr "b-1" |} ];
     serial := 2 |}.

(** An administrator's dashboard over these tables, with the outcomes
    the backend will give. *)
Definition dashboard (answers : list (option string)) : Sys Admin.State :=
  {| backend := {| db := staffed; outcomes := answers; trace := [] |};
     ui := {| Admin.myRole := Some "admin";
              Admin.editSanctuary := Some FormScenario.haven;
              Admin.refreshKey := 0 |};
     alerts := []; console := [] |}.

(** A sanctuary that is not stored yet. *)
Definition newcomer : Sanctuary :=
  {| id := JNull; name := "Vasiliki Cats";
     latitude := JStr "38.630000"; longitude := JStr "20.600000";
     radius_km := JNum 2; boundary := JNull; approved := false;
     details := FormScenario.about; opening_hours := stored_week |}.

(** The map page of the owner with two reports on it, the backend
    serving the log insert and refusing the delete. *)
Definition kitten : Sighting :=
  {| sg_id := "s-2"; sg_latitude := "38.81"; sg_longitude := "20.72";
     sg_notes := "two kittens"; sg_animals := 1; sg_behaviour := "normal";
     sg_photo_url := JNull; sg_user_id := JStr "u-1";
     sg_visibility := "public"; sg_created_at := 90 |}.

Definition map_page (answers : list (option string)) : Sys MapView.State :=
  {| backend :=
       {| db := {| Backend.sightings := [DeleteScenario.cat; kitten];
                   deletion_logs := []; profiles := [];
                   Backend.sanctuaries := []; caregiver_assignments := [];
                   serial := 0 |};
          outcomes := answers; trace := [] |};
     ui := {| MapView.user := Some DeleteScenario.owner;
              MapView.sightings := [DeleteScenario.cat; kitten];
              MapView.zones := []; MapView.sanctuaries := [] |};
     alerts := []; console := [] |}.

(** The report form filled in over that map, with a photo. *)
Definition report : Report.Page :=
  {| Report.map := ui (map_page []);
     Report.clickedLocation := Some {| Report.lat := 38 # 1; Report.lng := 20 # 1 |};
     Report.notes := "limping"; Report.isInjured := true;
     Report.photoFile := Some {| Report.file_name := "cat.jpg" |};
     Report.visibility := "caregiver" |}.

(** What the backend returns for the inserted report. *)
Definition returned : Sighting :=
  {| sg_id := "s-3"; sg_latitude := "38"; sg_longitude := "20";
     sg_notes := "limping"; sg_animals := 1; sg_behaviour := "injured";
     sg_photo_url := JStr "https://files.example.org/1700-cat.jpg";
     sg_user_id := JStr "u-1"; sg_visibility := "caregiver";
     sg_created_at := 300 |}.

Definition show (x : Q) : string := pretty (Qnum x).
Definition url (fileName : string) : string :=
  "https://files.example.org/" +:+ fileName.

(** The form of the first revision opened on sanctuary B. *)
Definition editing_v1 : SanctuaryFormV1.State :=
  SanctuaryFormV1.init FormScenario.haven None.

End MoreScenarios.

(* ===================================================================== *)
(** * Properties *)
(* ===================================================================== *)

(** ** Handlers in general *)

Lemma strict_eq_str (v : jsval) (t : string) :
  strict_eq v (JStr t) = true <-> v = JStr t.
Proof.
  destruct v as [ | b | x | s]; simpl; split; try discriminate.
  - intros H. apply String.eqb_eq in H. now subst.
  - intros H. injection H as ->. apply String.eqb_refl.
Qed.

(** ** Deleting a sighting *)

(** X15.  The first revision stops when the log entry is refused:
    nothing is deleted, neither in the table nor on the map. *)
Lemma handleDelete_v1_aborts (s : Sighting) (answer : option string)
      (sys : Sys MapView.State) (msg : string) (rest : list (option string)) :
  outcomes (backend sys) = Some msg :: rest ->
  let after := run (MapViewV1.handleDelete s answer) sys in
  db (backend after) = db (backend sys)
  /\ ui after = ui sys
  /\ (forall sid, ~ In (DeleteSighting sid) (trace (backend sys)) ->
                  ~ In (DeleteSighting sid) (trace (backend after))).
Proof.
  intros Hout. unfold MapViewV1.handleDelete, run, bind, get. simpl.
  destruct (MapView.user (ui sys)) as [u | ]; [ | simpl; auto].
  match goal with |- context [if ?c then _ else _] => destruct c end;
    [simpl; auto | ].
  unfold await, request. rewrite Hout. simpl.
  repeat split; auto.
  intros sid Hnot Hin. apply in_app_or in Hin as [Hin | [Hin | []]];
    [now apply Hnot | discriminate].
Qed.

(** When both requests are served the first revision logs, deletes and
    takes the marker off the map. *)
Example handleDelete_v1_served :
  let page := {| backend := {| db := DeleteScenario.tables; outcomes := []; trace := [] |};
                 ui := ui DeleteScenario.page; alerts := []; console := [] |} in
  let after := run (MapViewV1.handleDelete DeleteScenario.cat (Some " duplicate ")) page in
  deletion_logs (db (backend after))
  = [ {| dl_sighting_id := "s-1"; dl_user_id := "u-1"; dl_reason := "duplicate" |} ]
  /\ Backend.sightings (db (backend after)) = []
  /\ MapView.sightings (ui after) = [].
Proof. vm_compute. repeat split. Qed.

(** The current revision issues the delete whatever the log insert
    answered. *)
Lemma handleDelete_issues_delete (s : Sighting) (reason : string) (u : User)
      (sys : Sys MapView.State) :
  MapView.user (ui sys) = Some u ->
  reason <> "" ->
  trace (backend (run (MapView.handleDelete s (Some reason)) sys))
  = trace (backend sys)
      ++ [InsertDeletionLog {| dl_sighting_id := sg_id s; dl_user_id := u_id u;
                               dl_reason := reason |};
          DeleteSighting (sg_id s)].
Proof.
  intros Hu Hr. unfold MapView.handleDelete, run, bind, get. simpl.
  rewrite Hu. simpl.
  destruct (String.eqb reason "") eqn:E; [apply String.eqb_eq in E; contradiction | ].
  simpl. unfold await, request.
  destruct (outcomes (backend sys)) as [ | [m | ] [ | [m' | ] rest]]; simpl;
    rewrite <- app_assoc; reflexivity.
Qed.

(** C1 (evaluation at the failing input).  The owner deletes the sighting
    [s-1] and gives a reason; the backend refuses the insert into
    [deletion_logs].  The delete is issued all the same: the log table is
    still empty while the row is gone from the [sightings] table and from
    the map.  The log insert does precede the delete in the trace. *)
Theorem handleDelete_deletes_after_refused_log :
  let after := run (MapView.handleDelete DeleteScenario.cat (Some "duplicate"))
                   DeleteScenario.page in
  trace (backend after)
  = [InsertDeletionLog {| dl_sighting_id := "s-1"; dl_user_id := "u-1";
                          dl_reason := "duplicate" |};
     DeleteSighting "s-1"]
  /\ deletion_logs (db (backend after)) = []
  /\ Backend.sightings (db (backend after)) = []
  /\ MapView.sightings (ui after) = []
  /\ alerts after = [].
Proof. vm_compute. repeat split. Qed.

(** ** Who may delete *)

(** C2.  The Delete button is offered exactly to the signed-in account
    whose id is the row's [user_id]; a non-owner never gets it, also when
    its profile carries the role admin. *)
Theorem canDelete_iff_owner :
  (forall (s : Sighting) (viewer : option User),
      MapView.canDelete viewer s = true
      <-> exists u, viewer = Some u /\ sg_user_id s = JStr (u_id u))
  /\ (forall (d : Db) (s : Sighting) (u : User) (role : string),
         profile_role d (u_id u) = Some role ->
         sg_user_id s <> JStr (u_id u) ->
         MapView.canDelete (Some u) s = false).
Proof.
  split.
  - intros s [u | ]; simpl.
    + rewrite strict_eq_str. split.
      * intros H. exists u. auto.
      * intros (u' & Hu & H). injection Hu as ->. exact H.
    + split; [discriminate | intros (u & Hu & _); discriminate].
  - intros d s u role _ Hne. simpl.
    destruct (strict_eq (sg_user_id s) (JStr (u_id u))) eqn:E; [ | reflexivity].
    apply strict_eq_str in E. contradiction.
Qed.

Lemma canDelete_iff_owner_witness :
  profile_role VisibilityScenario.tables "u-3" = Some "admin"
  /\ MapView.canDelete (Some VisibilityScenario.eve) VisibilityScenario.secret = false.
Proof.
  split; [reflexivity | ].
  apply (proj2 canDelete_iff_owner VisibilityScenario.tables
               VisibilityScenario.secret VisibilityScenario.eve "admin").
  - reflexivity.
  - discriminate.
Defined.

(** ** The role gate *)

Lemma not_admin_true (st : Admin.State) :
  Admin.myRole st <> Some "admin" -> Admin.not_admin st = true.
Proof.
  unfold Admin.not_admin. destruct (Admin.myRole st) as [r | ]; [ | reflexivity].
  intros H. destruct (String.eqb r "admin") eqn:E; [ | reflexivity].
  apply String.eqb_eq in E. subst. contradiction.
Qed.

(** An administrator's switch does reach the backend. *)
Example admin_switchRole_issues_update :
  let page := {| backend := backend AdminScenario.page;
                 ui := {| Admin.myRole := Some "admin"; Admin.editSanctuary := None;
                          Admin.refreshKey := 0 |};
                 alerts := []; console := [] |} in
  let after := run (Admin.switchRole "u-2" "caregiver") page in
  trace (backend after) = [UpdateProfileRole "u-2" "caregiver"]
  /\ profile_role (db (backend after)) "u-2" = Some "caregiver"
  /\ Admin.refreshKey (ui after) = 1%Z.
Proof. vm_compute. repeat split. Qed.

(** C5.  Under any role other than admin the three administrative
    handlers return at their first line: the backend (tables, pending
    outcomes and request trace), the page state and the alerts are the
    ones before the call, so no request was issued. *)
Theorem role_gate_no_effect (sys : Sys Admin.State) :
  Admin.myRole (ui sys) <> Some "admin" ->
  (forall uid newRole, Admin.switchRole uid newRole sys = (tt, sys))
  /\ (forall sanctuary ids, Admin.saveSanctuary sanctuary ids sys = (tt, sys))
  /\ (forall sid confirmed, Admin.deleteSanctuary sid confirmed sys = (tt, sys)).
Proof.
  intros H. apply not_admin_true in H.
  unfold Admin.switchRole, Admin.saveSanctuary, Admin.deleteSanctuary, bind, get.
  rewrite H. repeat split.
Qed.

Lemma role_gate_no_effect_witness :
  trace (backend (run (Admin.switchRole "u-2" "admin") AdminScenario.page)) = []
  /\ db (backend (run (Admin.deleteSanctuary (JStr "x") true) AdminScenario.page))
     = VisibilityScenario.tables.
Proof.
  assert (H : Admin.myRole (ui AdminScenario.page) <> Some "admin")
    by (simpl; discriminate).
  destruct (role_gate_no_effect AdminScenario.page H) as (Hs & _ & Hd).
  unfold run. rewrite Hs, Hd. split; reflexivity.
Defined.

(** ** Address search *)

(** C10.  When the search request fails or comes back with no place, the
    form (hence its latitude and longitude) is the one before the call;
    the coordinates are overwritten only by the first place of a
    non-empty answer. *)
Theorem geocode_without_hit_keeps_position
        (toFixed6 : string -> string) (sys : Sys SanctuaryForm.State) :
  let form_after reply :=
    SanctuaryForm.form (ui (run (SanctuaryForm.geocode toFixed6 reply) sys)) in
  let old := SanctuaryForm.form (ui sys) in
  form_after SanctuaryForm.Failed = old
  /\ form_after (SanctuaryForm.Places []) = old
  /\ forall p rest,
       form_after (SanctuaryForm.Places (p :: rest))
       = if truthy (JStr (trim (SanctuaryForm.address (ui sys))))
         then SanctuaryForm.set_position
                (JStr (toFixed6 (SanctuaryForm.lat p)))
                (JStr (toFixed6 (SanctuaryForm.lon p))) old
         else old.
Proof.
  unfold SanctuaryForm.geocode, run, bind, get. simpl.
  destruct (negb (String.eqb (trim (SanctuaryForm.address (ui sys))) ""));
    simpl; repeat split.
Qed.

(** ** Saving the sanctuary form *)

Lemma truthy_not_null (v : jsval) : truthy v = true -> v <> JNull.
Proof. destruct v; simpl; congruence. Qed.

(** What the geometry check leaves: in radius mode a set radius and no
    boundary, otherwise a set boundary and no radius. *)
Lemma pick_geometry_inr (md : string) (f f1 : Sanctuary) :
  SanctuaryForm.pick_geometry md f = inr f1 ->
  (md = "radius" /\ truthy (radius_km f) = true
   /\ f1 = SanctuaryForm.set_boundary JNull f)
  \/ (md <> "radius" /\ truthy (boundary f) = true
      /\ f1 = SanctuaryForm.set_radius_km JNull f).
Proof.
  unfold SanctuaryForm.pick_geometry.
  destruct (String.eqb md "radius") eqn:E.
  - apply String.eqb_eq in E.
    destruct (truthy (radius_km f)) eqn:T; simpl; [ | discriminate].
    intros H. injection H as <-. left. auto.
  - apply String.eqb_neq in E.
    destruct (truthy (boundary f)) eqn:T; simpl; [ | discriminate].
    intros H. injection H as <-. right. auto.
Qed.

(** A save goes through the geometry check, and what is handed to
    [onSave] differs from its result in the opening hours only. *)
Lemma handleSubmit_saved (st st' : SanctuaryForm.State)
      (payload : Sanctuary) (ids : list string) :
  SanctuaryForm.handleSubmit st = (SanctuaryForm.Saved payload ids, st') ->
  exists f1 hrs,
    SanctuaryForm.pick_geometry (SanctuaryForm.mode st) (SanctuaryForm.form st) = inr f1
    /\ SanctuaryForm.compact_hours (opening_hours f1) = Some hrs
    /\ payload = SanctuaryForm.set_opening_hours hrs f1
    /\ SanctuaryForm.form st' = payload
    /\ ids = SanctuaryForm.assigned st.
Proof.
  unfold SanctuaryForm.handleSubmit.
  destruct (negb (truthy (JStr (trim (name (SanctuaryForm.form st)))))); [discriminate | ].
  destruct (negb (truthy (latitude (SanctuaryForm.form st)))
            || negb (truthy (longitude (SanctuaryForm.form st)))); [discriminate | ].
  destruct (SanctuaryForm.pick_geometry _ _) as [msg | f1]; [discriminate | ].
  destruct (SanctuaryForm.compact_hours _) as [hrs | ] eqn:Hh; [ | discriminate].
  intros H. injection H as <- <- <-. exists f1, hrs. auto.
Qed.

(** C3.  Whatever is handed to [onSave] carries exactly one geometry: in
    radius mode the boundary is null and the radius is set, in polygon
    mode the radius is null and the boundary is set; never both. *)
Theorem handleSubmit_one_geometry (st st' : SanctuaryForm.State)
        (payload : Sanctuary) (ids : list string) :
  SanctuaryForm.handleSubmit st = (SanctuaryForm.Saved payload ids, st') ->
  (SanctuaryForm.mode st = "radius" ->
     boundary payload = JNull /\ radius_km payload <> JNull)
  /\ (SanctuaryForm.mode st = "polygon" ->
        radius_km payload = JNull /\ boundary payload <> JNull)
  /\ ((radius_km payload <> JNull /\ boundary payload = JNull)
      \/ (radius_km payload = JNull /\ boundary payload <> JNull))
  /\ SanctuaryForm.form st' = payload.
Proof.
  intros H. apply handleSubmit_saved in H as (f1 & hrs & Hg & _ & -> & Hst & _).
  apply pick_geometry_inr in Hg as [(Hm & Ht & ->) | (Hm & Ht & ->)];
    apply truthy_not_null in Ht; simpl.
  - split; [auto | ]. split; [ | auto].
    intros Hp. rewrite Hp in Hm. discriminate.
  - split; [intros Hp; contradiction | ]. split; auto.
Qed.

Lemma handleSubmit_one_geometry_witness :
  exists payload : Sanctuary,
    boundary payload = JNull /\ radius_km payload <> JNull.
Proof.
  destruct (SanctuaryForm.handleSubmit FormScenario.editing)
    as [[msg | payload ids | ] st'] eqn:E;
    try (vm_compute in E; discriminate).
  exists payload.
  exact (proj1 (handleSubmit_one_geometry FormScenario.editing _ _ _ E) eq_refl).
Defined.

(** What an administrator's save of an existing sanctuary leaves in the
    table when the backend serves it: the payload, in place of the row
    with its id. *)
Lemma saveSanctuary_stores_payload (sys : Sys Admin.State) (payload : Sanctuary)
      (ids : list string) :
  Admin.myRole (ui sys) = Some "admin" ->
  truthy (id payload) = true ->
  outcomes (backend sys) = [] ->
  Backend.sanctuaries (db (backend (run (Admin.saveSanctuary payload ids) sys)))
  = map (fun s => if strict_eq (id s) (id payload) then payload else s)
        (Backend.sanctuaries (db (backend sys))).
Proof.
  intros Hrole Hid Hout.
  unfold Admin.saveSanctuary, Admin.link_caregivers, Admin.not_admin,
    run, bind, get, await, request, setState, ret.
  rewrite Hrole, Hid. simpl. rewrite Hout. simpl.
  destruct ids; reflexivity.
Qed.

(** ** Radius or polygon on the map *)



(** ** Drawn boundaries *)

Lemma JSON_stringify_truthy (gj : BoundaryDrawer.GeoJSON) :
  truthy (JStr (SanctuaryForm.JSON_stringify gj)) = true.
Proof. reflexivity. Qed.

(** C4 (as the code has it).  [_save] checks nothing: the first edited
    layer is converted and handed to [onSave] as it is, the form stores
    its text as the boundary, and a submit in polygon mode only asks for
    a boundary that is not empty, which that text is. *)
Theorem save_hands_shape_over_unchecked :
  (forall (l : BoundaryDrawer.Layer) (ls : list BoundaryDrawer.Layer)
          (lo : option BoundaryDrawer.Layer),
      BoundaryDrawer._save
        {| BoundaryDrawer.layers := Some (l :: ls); BoundaryDrawer.layer := lo |}
      = BoundaryDrawer.OnSave (BoundaryDrawer.toGeoJSON l))
  /\ (forall (gj : BoundaryDrawer.GeoJSON) (st : SanctuaryForm.State),
         boundary (SanctuaryForm.form (SanctuaryForm.drawer_onSave gj st))
         = JStr (SanctuaryForm.JSON_stringify gj)
         /\ SanctuaryForm.pick_geometry "polygon"
              (SanctuaryForm.form (SanctuaryForm.drawer_onSave gj st))
            = inr (SanctuaryForm.set_radius_km JNull
                     (SanctuaryForm.form (SanctuaryForm.drawer_onSave gj st)))).
Proof.
  split.
  - reflexivity.
  - intros gj st. split; reflexivity.
Qed.

(** A [draw:created] event has no [e.layers]: reading [getLayers] of it
    throws before the new layer is looked at. *)
Example save_on_created_event :
  BoundaryDrawer._save (FormScenario.created FormScenario.quad)
  = BoundaryDrawer.TypeError.
Proof. reflexivity. Qed.

(** C4 (counter-example).  A ring without area and a ring with two
    distinct vertices, each coming out of an edit, reach [onSave]; the
    second one is then saved as the boundary of sanctuary B. *)
Lemma degenerate_shape_accepted :
  BoundaryDrawer.twice_area FormScenario.flat = 0%Z
  /\ BoundaryDrawer._save (FormScenario.edited FormScenario.flat)
     = BoundaryDrawer.OnSave FormScenario.flat
  /\ BoundaryDrawer.distinct_vertices FormScenario.pinched = 2
  /\ BoundaryDrawer._save (FormScenario.edited FormScenario.pinched)
     = BoundaryDrawer.OnSave FormScenario.pinched
  /\ exists payload ids st',
       SanctuaryForm.handleSubmit (FormScenario.switched FormScenario.pinched)
       = (SanctuaryForm.Saved payload ids, st')
       /\ boundary payload
          = JStr (SanctuaryForm.JSON_stringify FormScenario.pinched).
Proof.
  repeat split.
  destruct (SanctuaryForm.handleSubmit (FormScenario.switched FormScenario.pinched))
    as [[msg | payload ids | ] st'] eqn:E;
    try (vm_compute in E; discriminate).
  exists payload, ids, st'. split; [reflexivity | ].
  vm_compute in E. injection E as <- _ _. reflexivity.
Qed.

(** ** What the map fetches and shows *)




Lemma initial_fetch_zones (w : World) (viewer : option User) :
  let st := ui (run (MapView.initial_fetch viewer) (MapView.mount w)) in
  MapView.sanctuaries st = map MapView.marker_of (MapView.zones st)
  /\ (MapView.zones st = []
      \/ MapView.zones st
         = map MapView.zone_of
             (List.filter (fun s => Bool.eqb (approved s) true)
                          (Backend.sanctuaries (db w)))).
Proof.
  unfold MapView.initial_fetch, MapView.select_sightings,
    MapView.select_approved_zones, MapView.mount,
    run, bind, await, get, request, setState, ret.
  destruct viewer; simpl;
    destruct (outcomes w) as [ | [m | ] [ | [m' | ] rest]]; simpl; auto.
Qed.




(** The markers of the revision without zones. *)
Lemma initial_fetch_centres (parseFloat : jsval -> jsval) (w : World)
      (viewer : option User) :
  let st := ui (run (MapViewV2.initial_fetch parseFloat viewer) (MapView.mount w)) in
  MapView.sanctuaries st = []
  \/ MapView.sanctuaries st
     = map (MapViewV2.marker_of parseFloat)
         (map MapViewV2.centre_of
            (List.filter (fun s => Bool.eqb (approved s) true)
                         (Backend.sanctuaries (db w)))).
Proof.
  unfold MapViewV2.initial_fetch, MapView.select_sightings,
    MapViewV2.select_approved_centres, MapView.mount,
    run, bind, await, get, request, setState, ret.
  destruct viewer; simpl;
    destruct (outcomes w) as [ | [m | ] [ | [m' | ] rest]]; simpl; auto.
Qed.

Lemma approved_markers_v2 (parseFloat : jsval -> jsval) (w : World)
      (viewer : option User) :
  Forall (fun m => exists row, In row (Backend.sanctuaries (db w))
                               /\ approved row = true
                               /\ m = MapViewV2.marker_of parseFloat
                                        (MapViewV2.centre_of row))
         (MapView.sanctuaries
            (ui (run (MapViewV2.initial_fetch parseFloat viewer) (MapView.mount w)))).
Proof.
  destruct (initial_fetch_centres parseFloat w viewer) as [-> | ->];
    [constructor | ].
  apply List.Forall_forall. intros m Hin.
  apply in_map_iff in Hin as (c & <- & Hc).
  apply in_map_iff in Hc as (row & <- & Hrow).
  apply filter_In in Hrow as [Hrow Happ].
  exists row. repeat split; auto.
  now destruct (approved row).
Qed.

(** C7.  Every zone and every sanctuary marker of the map comes from a
    row of the sanctuaries table whose [approved] is true, in the
    revision with zones and in the one with markers only; a row that is
    not approved, its id being its own, has neither a zone nor a marker. *)
Theorem only_approved_sanctuaries_on_map (w : World) (viewer : option User) :
  let st := ui (run (MapView.initial_fetch viewer) (MapView.mount w)) in
  Forall (fun z => exists row, In row (Backend.sanctuaries (db w))
                               /\ approved row = true
                               /\ z = MapView.zone_of row)
         (MapView.zones st)
  /\ Forall (fun m => exists row, In row (Backend.sanctuaries (db w))
                                  /\ approved row = true
                                  /\ m = MapView.marker_of (MapView.zone_of row))
            (MapView.sanctuaries st)
  /\ (forall parseFloat : jsval -> jsval,
        Forall (fun m => exists row, In row (Backend.sanctuaries (db w))
                                     /\ approved row = true
                                     /\ m = MapViewV2.marker_of parseFloat
                                              (MapViewV2.centre_of row))
               (MapView.sanctuaries
                  (ui (run (MapViewV2.initial_fetch parseFloat viewer)
                           (MapView.mount w)))))
  /\ (forall row,
        In row (Backend.sanctuaries (db w)) ->
        approved row = false ->
        (forall other, In other (Backend.sanctuaries (db w)) ->
                       id other = id row -> other = row) ->
        ~ In (id row) (map MapView.z_id (MapView.zones st))
        /\ ~ In (id row) (map MapView.m_id (MapView.sanctuaries st))).
Proof.
  intros st. destruct (initial_fetch_zones w viewer) as [Hm Hz].
  fold st in Hm, Hz.
  assert (Hzones : Forall (fun z => exists row, In row (Backend.sanctuaries (db w))
                               /\ approved row = true
                               /\ z = MapView.zone_of row) (MapView.zones st)).
  { destruct Hz as [-> | ->]; [constructor | ].
    apply List.Forall_forall. intros z Hin.
    apply in_map_iff in Hin as (row & <- & Hrow).
    apply filter_In in Hrow as [Hrow Happ].
    exists row. repeat split; auto.
    now destruct (approved row). }
  assert (Hmarks : Forall (fun m => exists row, In row (Backend.sanctuaries (db w))
                               /\ approved row = true
                               /\ m = MapView.marker_of (MapView.zone_of row))
                          (MapView.sanctuaries st)).
  { rewrite Hm. apply List.Forall_forall. intros m Hin.
    apply in_map_iff in Hin as (z & <- & Hz').
    rewrite List.Forall_forall in Hzones.
    destruct (Hzones z Hz') as (row & Hrow & Happ & ->).
    exists row. auto. }
  split; [exact Hzones | ]. split; [exact Hmarks | ].
  split; [intros parseFloat; apply approved_markers_v2 | ].
  intros row Hrow Hno Huniq.
  rewrite List.Forall_forall in Hzones, Hmarks.
  split; intros Hin; apply in_map_iff in Hin as (x & Hid & Hx).
  - destruct (Hzones x Hx) as (other & Hother & Happ & ->).
    rewrite (Huniq other Hother Hid) in Happ. congruence.
  - destruct (Hmarks x Hx) as (other & Hother & Happ & ->).
    rewrite (Huniq other Hother Hid) in Happ. congruence.
Qed.

(** The draft is on the table and not on the map. *)
Lemma only_approved_sanctuaries_on_map_witness :
  In FormScenario.draft (Backend.sanctuaries FormScenario.tables)
  /\ ~ In (JStr "b-2")
         (map MapView.z_id
            (MapView.zones
               (ui (run (MapView.initial_fetch None)
                        (MapView.mount FormScenario.world))))).
Proof.
  split; [right; left; reflexivity | ].
  apply (proj2 (proj2 (proj2 (only_approved_sanctuaries_on_map
                                FormScenario.world None)))
               FormScenario.draft).
  - right; left; reflexivity.
  - reflexivity.
  - intros other [<- | [<- | []]] Hid; [discriminate Hid | reflexivity].
Defined.

(** Sanctuary B, switched to the quadrilateral and saved by an
    administrator, is on the map as that polygon and as nothing else. *)
Example switch_end_to_end :
  MapView.render_zones FormScenario.map_after_switch
  = [MapView.GeoJSONLayer (JStr "b-1")
       (JStr (SanctuaryForm.JSON_stringify FormScenario.quad))]
  /\ map MapView.z_radius_km (MapView.zones FormScenario.map_after_switch)
     = [JNull].
Proof. vm_compute. split; reflexivity. Qed.

(** ** Opening hours *)

Lemma includes_app (c : ascii) (a b : string) :
  includes c (a +:+ b) = includes c a || includes c b.
Proof.
  induction a as [ | d a IH]; simpl; [reflexivity | ].
  rewrite IH. apply orb_assoc.
Qed.

Lemma split_without (c : ascii) (a : string) :
  includes c a = false -> split c a = [a].
Proof.
  induction a as [ | d a IH]; simpl; [reflexivity | ].
  intros H. apply orb_false_elim in H as [Hd Ha].
  rewrite Hd, (IH Ha). reflexivity.
Qed.

Lemma split_at_first (c : ascii) (a b : string) :
  includes c a = false -> split c (a +:+ String c b) = a :: split c b.
Proof.
  induction a as [ | d a IH]; simpl.
  - intros _. rewrite Ascii.eqb_refl. reflexivity.
  - intros H. apply orb_false_elim in H as [Hd Ha].
    rewrite Hd, (IH Ha). reflexivity.
Qed.

(** One weekday through the compact string and back. *)
Lemma hours_of_entry_compact (h : Hours) :
  (closed h = false -> SanctuaryForm.dash_free h = true) ->
  SanctuaryForm.hours_of_entry (Some (HStr (SanctuaryForm.compact (HObj h))))
  = SanctuaryForm.restore h.
Proof.
  destruct h as [o c [ | ]]; unfold SanctuaryForm.restore, SanctuaryForm.dash_free;
    simpl; [reflexivity | ].
  intros H. specialize (H eq_refl).
  destruct (includes "-" o) eqn:Ho; [discriminate | ].
  destruct (includes "-" c) eqn:Hc; [discriminate | ]. clear H.
  assert (Hin : includes "-" (o +:+ "-" +:+ c) = true).
  { rewrite includes_app. simpl. apply orb_true_r. }
  destruct (String.eqb (o +:+ "-" +:+ c) "closed") eqn:E.
  - apply String.eqb_eq in E. rewrite E in Hin. discriminate.
  - rewrite Hin.
    change (o +:+ "-" +:+ c) with (o +:+ String "-" c).
    rewrite (split_at_first _ _ _ Ho), (split_without _ _ Hc). reflexivity.
Qed.

(** Filling an object weekday by weekday. *)
Lemma lookup_filled {V : Type} (g : string -> string) (f : string -> V)
      (ds : list string) (m : gmap string V) (k : string) :
  fold_left (fun out d => <[g d := f (g d)]> out) ds m !! k
  = if decide (k ∈ map g ds) then Some (f k) else m !! k.
Proof.
  revert m. induction ds as [ | d ds IH]; intros m; cbn [fold_left map].
  - destruct (decide (k ∈ [])) as [H | H]; [inversion H | reflexivity].
  - rewrite IH.
    destruct (decide (k ∈ map g ds)) as [Hin | Hout],
             (decide (k ∈ g d :: map g ds)) as [Hin' | Hout'];
      try reflexivity.
    + exfalso. apply Hout'. now apply list_elem_of_further.
    + apply elem_of_cons in Hin' as [-> | Hin']; [ | contradiction].
      now rewrite lookup_insert_eq.
    + destruct (decide (g d = k)) as [<- | Hne].
      * exfalso. apply Hout'. apply list_elem_of_here.
      * now rewrite lookup_insert_ne.
Qed.

Lemma lookup_toHoursObj (raw : SanctuaryForm.RawHours) (k : string) :
  SanctuaryForm.toHoursObj raw !! k
  = if decide (k ∈ SanctuaryForm.keys)
    then Some (SanctuaryForm.hours_of_day raw k)
    else None.
Proof.
  unfold SanctuaryForm.toHoursObj, SanctuaryForm.keys.
  rewrite (lookup_filled toLowerCase (SanctuaryForm.hours_of_day raw)).
  destruct (decide _); [reflexivity | apply lookup_empty].
Qed.

(** The compact object exists as soon as every weekday is in the form's
    object, and holds the compact string of each. *)
Lemma compact_hours_filled (oh : gmap string hval) (ds : list string)
      (m : gmap string hval) :
  (forall k, k ∈ map toLowerCase ds -> is_Some (oh !! k)) ->
  fold_left
    (fun acc d =>
       let k := toLowerCase d in
       match acc, oh !! k with
       | Some hrs, Some h => Some (<[k := HStr (SanctuaryForm.compact h)]> hrs)
       | _, _ => None
       end) ds (Some m)
  = Some (fold_left
            (fun out d =>
               <[toLowerCase d :=
                   match oh !! toLowerCase d with
                   | Some h => HStr (SanctuaryForm.compact h)
                   | None => HStr ""
                   end]> out) ds m).
Proof.
  revert m. induction ds as [ | d ds IH]; intros m Hall; cbn [fold_left map];
    [reflexivity | ].
  destruct (Hall (toLowerCase d)) as [h Hh]; [apply list_elem_of_here | ].
  cbn zeta. rewrite Hh. apply IH. intros k Hk. apply Hall.
  now apply list_elem_of_further.
Qed.

(** Every weekday through the compact object and back. *)
Lemma hours_round_trip_open (obj : gmap string Hours) :
  dom obj = list_to_set SanctuaryForm.keys ->
  (forall k h, obj !! k = Some h -> closed h = false ->
               SanctuaryForm.dash_free h = true) ->
  exists wire : gmap string hval,
    SanctuaryForm.compact_hours (HObj <$> obj) = Some wire
    /\ SanctuaryForm.toHoursObj (SanctuaryForm.RawObject wire)
       = SanctuaryForm.restore <$> obj.
Proof.
  intros Hdom Hfree.
  assert (Hkey : forall k, k ∈ SanctuaryForm.keys <-> is_Some (obj !! k)).
  { intros k. rewrite <- elem_of_dom, Hdom. symmetry. apply elem_of_list_to_set. }
  pose (entry := fun k : string =>
                   match (HObj <$> obj) !! k with
                   | Some h => HStr (SanctuaryForm.compact h)
                   | None => HStr ""
                   end).
  pose (wire := fold_left (fun out d => <[toLowerCase d := entry (toLowerCase d)]> out)
                          SanctuaryForm.DAYS (∅ : gmap string hval)).
  exists wire. split.
  - unfold SanctuaryForm.compact_hours. apply compact_hours_filled.
    intros k Hk. apply Hkey in Hk as [h Hh].
    rewrite lookup_fmap, Hh. simpl. eauto.
  - apply map_eq. intros k.
    rewrite lookup_toHoursObj, lookup_fmap.
    destruct (decide (k ∈ SanctuaryForm.keys)) as [Hin | Hout].
    + destruct (proj1 (Hkey k) Hin) as [h Hh]. rewrite Hh. simpl.
      unfold wire. rewrite (lookup_filled toLowerCase entry).
      fold SanctuaryForm.keys.
      destruct (decide (k ∈ SanctuaryForm.keys)); [ | contradiction].
      unfold entry. rewrite lookup_fmap, Hh. simpl.
      f_equal. apply hours_of_entry_compact. eauto.
    + destruct (obj !! k) as [h | ] eqn:Hh; [ | reflexivity].
      exfalso. apply Hout, Hkey. eauto.
Qed.

(** A closed day is its own restoration exactly when it carries the
    default times. *)
Lemma restore_fixed (obj : gmap string Hours) :
  SanctuaryForm.restore <$> obj = obj
  <-> forall k h, obj !! k = Some h -> closed h = true ->
                  open h = "09:00" /\ close h = "17:00".
Proof.
  split.
  - intros Hsame k h Hh Hc.
    apply (f_equal (fun m => m !! k)) in Hsame.
    rewrite lookup_fmap, Hh in Hsame. simpl in Hsame.
    injection Hsame as Hsame. unfold SanctuaryForm.restore in Hsame.
    rewrite Hc in Hsame. rewrite <- Hsame. simpl. auto.
  - intros Hdef. apply map_eq. intros k.
    rewrite lookup_fmap. destruct (obj !! k) as [h | ] eqn:Hh; [ | reflexivity].
    simpl. f_equal. unfold SanctuaryForm.restore.
    destruct (closed h) eqn:Hc; [ | reflexivity].
    destruct (Hdef k h Hh Hc) as [Ho Hcl]. destruct h as [o c cl].
    simpl in *. subst. reflexivity.
Qed.

(** C9 (as the code has it).  For an opening-hours object over the
    seven weekdays whose open days have times without a dash, the
    compact object exists and reading it back gives every open day as
    it was and every closed day as closed with the default 09:00 and
    17:00; it is the original object exactly when the closed days
    carried those times already. *)
Theorem hours_round_trip (obj : gmap string Hours) :
  dom obj = list_to_set SanctuaryForm.keys ->
  (forall k h, obj !! k = Some h -> closed h = false ->
               SanctuaryForm.dash_free h = true) ->
  exists wire : gmap string hval,
    SanctuaryForm.compact_hours (HObj <$> obj) = Some wire
    /\ SanctuaryForm.toHoursObj (SanctuaryForm.RawObject wire)
       = SanctuaryForm.restore <$> obj
    /\ (SanctuaryForm.toHoursObj (SanctuaryForm.RawObject wire) = obj
        <-> forall k h, obj !! k = Some h -> closed h = true ->
                        open h = "09:00" /\ close h = "17:00").
Proof.
  intros Hdom Hfree.
  destruct (hours_round_trip_open obj Hdom Hfree) as (wire & Hw & Hback).
  exists wire. split; [exact Hw | ]. split; [exact Hback | ].
  rewrite Hback. apply restore_fixed.
Qed.

(** The same trip as the form makes it: what [handleSubmit] hands over
    is stored, and the form opened on the stored row shows every open
    day as it was and every closed day with the default times. *)
Lemma saved_hours_reopened (st st' : SanctuaryForm.State) (obj : gmap string Hours)
      (payload : Sanctuary) (ids : list string) (joined : option (list Assignment)) :
  opening_hours (SanctuaryForm.form st) = HObj <$> obj ->
  dom obj = list_to_set SanctuaryForm.keys ->
  (forall k h, obj !! k = Some h -> closed h = false ->
               SanctuaryForm.dash_free h = true) ->
  SanctuaryForm.handleSubmit st = (SanctuaryForm.Saved payload ids, st') ->
  opening_hours (SanctuaryForm.form (SanctuaryForm.init payload joined))
  = HObj <$> (SanctuaryForm.restore <$> obj).
Proof.
  intros Hobj Hdom Hfree H.
  apply handleSubmit_saved in H as (f1 & hrs & Hg & Hh & -> & _ & _).
  assert (Hsame : opening_hours f1 = opening_hours (SanctuaryForm.form st)).
  { apply pick_geometry_inr in Hg as [(_ & _ & ->) | (_ & _ & ->)]; reflexivity. }
  rewrite Hsame, Hobj in Hh.
  destruct (hours_round_trip_open obj Hdom Hfree) as (wire & Hw & Hback).
  rewrite Hw in Hh. injection Hh as <-.
  simpl. now rewrite Hback.
Qed.

(** A week with a shortened Saturday and a closed Sunday comes back as
    it was. *)
Lemma hours_round_trip_witness :
  exists wire : gmap string hval,
    SanctuaryForm.compact_hours (HObj <$> FormScenario.weekend) = Some wire
    /\ SanctuaryForm.toHoursObj (SanctuaryForm.RawObject wire) = FormScenario.weekend.
Proof.
  assert (Hdom : dom FormScenario.weekend = list_to_set SanctuaryForm.keys)
    by (vm_compute; reflexivity).
  assert (Hfree : map_Forall (fun _ h => closed h = false ->
                                SanctuaryForm.dash_free h = true)
                             FormScenario.weekend).
  { apply map_Forall_to_list. vm_compute. repeat constructor. }
  assert (Hdef : map_Forall (fun _ h => closed h = true ->
                               open h = "09:00" /\ close h = "17:00")
                            FormScenario.weekend).
  { apply map_Forall_to_list. vm_compute.
    repeat constructor; discriminate. }
  destruct (hours_round_trip FormScenario.weekend Hdom Hfree)
    as (wire & Hw & _ & Hsame).
  exists wire. split; [exact Hw | exact (proj2 Hsame Hdef)].
Defined.

(** C9 (counter-example).  Monday was set to 10:00-18:00 and then
    ticked closed; through the compact form it comes back closed with
    09:00-17:00, so the object read back is not the original. *)
Lemma closed_day_loses_its_times :
  exists wire : gmap string hval,
    SanctuaryForm.compact_hours (HObj <$> FormScenario.monday_off) = Some wire
    /\ SanctuaryForm.toHoursObj (SanctuaryForm.RawObject wire) !! "mon"
       = Some {| open := "09:00"; close := "17:00"; closed := true |}
    /\ FormScenario.monday_off !! "mon"
       = Some {| open := "10:00"; close := "18:00"; closed := true |}
    /\ SanctuaryForm.toHoursObj (SanctuaryForm.RawObject wire)
       <> FormScenario.monday_off.
Proof.
  eexists. split; [vm_compute; reflexivity | ].
  split; [vm_compute; reflexivity | ].
  split; [vm_compute; reflexivity | ].
  intros H. apply (f_equal (fun m => m !! "mon")) in H.
  vm_compute in H. discriminate.
Qed.

(* ===================================================================== *)
(** * Further properties of the handlers *)
(* ===================================================================== *)

(** ** Splitting at the dash *)

Lemma split_single (c : ascii) (s b : string) :
  split c s = [b] -> s = b /\ includes c s = false.
Proof.
  revert b. induction s as [ | d s IH]; intros b; simpl.
  - intros H. injection H as <-. auto.
  - destruct (Ascii.eqb c d) eqn:E.
    + intros H. injection H as _ H. destruct s; simpl in H; [discriminate | ].
      destruct (Ascii.eqb c a); [discriminate | ].
      destruct (split c s); discriminate.
    + destruct (split c s) as [ | p ps] eqn:Hs.
      * intros H. injection H as <-.
        destruct s; simpl in Hs; [discriminate | ].
        destruct (Ascii.eqb c a); [discriminate | ].
        destruct (split c s); discriminate.
      * intros H. injection H as <- ->.
        destruct (IH p eq_refl) as [-> Hi]. rewrite Hi. auto.
Qed.

Lemma split_two (c : ascii) (s a b : string) :
  split c s = [a; b] ->
  s = a +:+ String c b /\ includes c a = false /\ includes c b = false.
Proof.
  revert a. induction s as [ | d s IH]; intros a; simpl; [discriminate | ].
  destruct (Ascii.eqb c d) eqn:E.
  - apply Ascii.eqb_eq in E. subst d.
    intros H. injection H as <- H.
    destruct (split_single _ _ _ H) as [-> Hi]. auto.
  - destruct (split c s) as [ | p ps] eqn:Hs; [discriminate | ].
    intros H. injection H as <- ->.
    destruct (IH p eq_refl) as (-> & Hp & Hb).
    simpl. rewrite E, Hp. auto.
Qed.

(** A stored string of either shape is what its own weekday compacts
    to. *)
Lemma compact_of_stored (s : string) :
  FormControls.stored_ok s = true ->
  SanctuaryForm.compact (HObj (SanctuaryForm.hours_of_entry (Some (HStr s)))) = s.
Proof.
  unfold FormControls.stored_ok, SanctuaryForm.hours_of_entry.
  destruct (String.eqb s "closed") eqn:E.
  - intros _. apply String.eqb_eq in E. subst. reflexivity.
  - simpl. destruct (split "-" s) as [ | a [ | b [ | x r]]] eqn:Hs;
      try discriminate.
    intros _. destruct (split_two _ _ _ _ Hs) as (Hjoin & _ & _).
    assert (Hin : includes "-" s = true).
    { rewrite Hjoin, includes_app. simpl. apply orb_true_r. }
    rewrite Hin. simpl. symmetry. exact Hjoin.
Qed.

(** ** The opening-hours objects *)

Lemma compact_fold_None (oh : gmap string hval) (ds : list string) :
  fold_left
    (fun (acc : option (gmap string hval)) d =>
       let k := toLowerCase d in
       match acc, oh !! k with
       | Some hrs, Some h => Some (<[k := HStr (SanctuaryForm.compact h)]> hrs)
       | _, _ => None
       end) ds None = None.
Proof. induction ds as [ | d ds IH]; simpl; auto. Qed.

Lemma compact_fold_Some (oh : gmap string hval) (ds : list string)
      (m hrs : gmap string hval) :
  fold_left
    (fun acc d =>
       let k := toLowerCase d in
       match acc, oh !! k with
       | Some hrs, Some h => Some (<[k := HStr (SanctuaryForm.compact h)]> hrs)
       | _, _ => None
       end) ds (Some m) = Some hrs ->
  forall k, k ∈ map toLowerCase ds -> is_Some (oh !! k).
Proof.
  revert m. induction ds as [ | d ds IH]; intros m H k Hk; cbn [map] in Hk.
  - inversion Hk.
  - cbn [fold_left] in H. cbn zeta in H.
    destruct (oh !! toLowerCase d) as [h | ] eqn:Hd.
    + apply elem_of_cons in Hk as [-> | Hk]; [eauto | ].
      exact (IH _ H k Hk).
    + rewrite compact_fold_None in H. discriminate.
Qed.

(** What the compact object holds: for each weekday the compact string
    of the form's entry, and nothing else; it exists exactly when every
    weekday has an entry. *)
Lemma compact_hours_lookup (oh hrs : gmap string hval) :
  SanctuaryForm.compact_hours oh = Some hrs ->
  forall k,
    hrs !! k = if decide (k ∈ SanctuaryForm.keys)
               then (fun h => HStr (SanctuaryForm.compact h)) <$> oh !! k
               else None.
Proof.
  intros H k.
  assert (Hall : forall k, k ∈ map toLowerCase SanctuaryForm.DAYS -> is_Some (oh !! k))
    by exact (compact_fold_Some oh _ _ _ H).
  unfold SanctuaryForm.compact_hours in H.
  rewrite (compact_hours_filled oh _ _ Hall) in H. injection H as <-.
  pose (entry := fun k : string =>
                   match oh !! k with
                   | Some h => HStr (SanctuaryForm.compact h)
                   | None => HStr ""
                   end).
  change (fold_left
            (fun out d => <[toLowerCase d := entry (toLowerCase d)]> out)
            SanctuaryForm.DAYS (∅ : gmap string hval) !! k
          = if decide (k ∈ SanctuaryForm.keys)
            then (fun h => HStr (SanctuaryForm.compact h)) <$> oh !! k
            else None).
  rewrite (lookup_filled toLowerCase entry).
  fold SanctuaryForm.keys.
  destruct (decide (k ∈ SanctuaryForm.keys)) as [Hin | Hout];
    [ | apply lookup_empty].
  unfold entry. destruct (Hall k Hin) as [h Hh]. rewrite Hh. reflexivity.
Qed.

Lemma compact_hours_complete (oh : gmap string hval) :
  (forall k, k ∈ SanctuaryForm.keys -> is_Some (oh !! k)) ->
  exists hrs, SanctuaryForm.compact_hours oh = Some hrs.
Proof.
  intros Hall. unfold SanctuaryForm.compact_hours.
  rewrite (compact_hours_filled oh _ _ Hall). eauto.
Qed.

(** X1.  Whatever is stored, the form opens with exactly the seven
    weekdays; a weekday reads as open from 09:00 to 17:00 when nothing
    is stored, when the stored text does not parse, and when its entry
    is missing, is not a string, or is a string other than "closed"
    without a dash. *)
Theorem toHoursObj_week (raw : SanctuaryForm.RawHours) :
  dom (SanctuaryForm.toHoursObj raw) = list_to_set SanctuaryForm.keys
  /\ (forall k, k ∈ SanctuaryForm.keys ->
        raw = SanctuaryForm.RawAbsent \/ raw = SanctuaryForm.RawText None ->
        SanctuaryForm.toHoursObj raw !! k = Some SanctuaryForm.def)
  /\ (forall j k, k ∈ SanctuaryForm.keys ->
        raw = SanctuaryForm.RawObject j \/ raw = SanctuaryForm.RawText (Some j) ->
        match j !! k with
        | Some (HStr s) => String.eqb s "closed" = false /\ includes "-" s = false
        | _ => True
        end ->
        SanctuaryForm.toHoursObj raw !! k = Some SanctuaryForm.def).
Proof.
  split; [ | split].
  - apply set_eq. intros k.
    rewrite elem_of_dom, elem_of_list_to_set, lookup_toHoursObj.
    destruct (decide (k ∈ SanctuaryForm.keys)) as [Hin | Hout].
    + split; [auto | eauto].
    + split; [intros [x Hx]; discriminate | contradiction].
  - intros k Hk Hraw. rewrite lookup_toHoursObj.
    destruct (decide (k ∈ SanctuaryForm.keys)); [ | contradiction].
    destruct Hraw as [-> | ->]; reflexivity.
  - intros j k Hk Hraw Hj. rewrite lookup_toHoursObj.
    destruct (decide (k ∈ SanctuaryForm.keys)); [ | contradiction].
    f_equal.
    assert (He : SanctuaryForm.hours_of_entry (j !! k) = SanctuaryForm.def).
    { unfold SanctuaryForm.hours_of_entry.
      destruct (j !! k) as [[h | s] | ]; try reflexivity.
      destruct Hj as [-> ->]. reflexivity. }
    destruct Hraw as [-> | ->]; exact He.
Qed.

Lemma toHoursObj_week_witness :
  SanctuaryForm.toHoursObj
    (SanctuaryForm.RawObject (<["wed" := HStr "whenever"]> ∅)) !! "wed"
  = Some SanctuaryForm.def.
Proof.
  apply (proj2 (proj2 (toHoursObj_week _)) (<["wed" := HStr "whenever"]> ∅) "wed").
  - vm_compute. repeat constructor.
  - left. reflexivity.
  - vm_compute. split; reflexivity.
Defined.

(** X2.  A stored object over the seven weekdays whose strings are
    "closed" or have two parts around one dash is stored again as it is
    when the form is opened on it and saved without touching the hours. *)
Theorem stored_hours_survive_reopening (wire : gmap string hval) :
  dom wire = list_to_set SanctuaryForm.keys ->
  (forall k, k ∈ SanctuaryForm.keys ->
             exists s, wire !! k = Some (HStr s) /\ FormControls.stored_ok s = true) ->
  SanctuaryForm.compact_hours
    (HObj <$> SanctuaryForm.toHoursObj (SanctuaryForm.RawObject wire))
  = Some wire.
Proof.
  intros Hdom Hok.
  destruct (compact_hours_complete
              (HObj <$> SanctuaryForm.toHoursObj (SanctuaryForm.RawObject wire)))
    as [hrs Hh].
  { intros k Hk. rewrite lookup_fmap, lookup_toHoursObj.
    destruct (decide (k ∈ SanctuaryForm.keys)); [simpl; eauto | contradiction]. }
  rewrite Hh. f_equal. apply map_eq. intros k.
  rewrite (compact_hours_lookup _ _ Hh k), lookup_fmap, lookup_toHoursObj.
  destruct (decide (k ∈ SanctuaryForm.keys)) as [Hin | Hout].
  - destruct (Hok k Hin) as (s & Hs & Hstored). simpl.
    rewrite Hs. f_equal. f_equal. now apply compact_of_stored.
  - destruct (wire !! k) as [h | ] eqn:Hw; [ | reflexivity].
    exfalso. apply Hout.
    apply (proj1 (elem_of_list_to_set (C := gset string) k SanctuaryForm.keys)).
    rewrite <- Hdom. apply elem_of_dom. eauto.
Qed.

Ltac each_weekday H :=
  unfold SanctuaryForm.keys, SanctuaryForm.DAYS in H; simpl in H;
  repeat (apply elem_of_cons in H as [-> | H]); [ .. | inversion H].

Lemma stored_hours_survive_reopening_witness :
  SanctuaryForm.compact_hours
    (HObj <$> SanctuaryForm.toHoursObj
                (SanctuaryForm.RawObject MoreScenarios.stored_week))
  = Some MoreScenarios.stored_week.
Proof.
  apply stored_hours_survive_reopening.
  - vm_compute. reflexivity.
  - intros k Hk. each_weekday Hk; eexists; split; reflexivity.
Defined.

(** ** Submitting the sanctuary form *)

(** Everything a save tells about the state it started from. *)
Lemma handleSubmit_saved_inv (st st' : SanctuaryForm.State)
      (payload : Sanctuary) (ids : list string) :
  SanctuaryForm.handleSubmit st = (SanctuaryForm.Saved payload ids, st') ->
  exists f1 hrs,
    truthy (JStr (trim (name (SanctuaryForm.form st)))) = true
    /\ truthy (latitude (SanctuaryForm.form st)) = true
    /\ truthy (longitude (SanctuaryForm.form st)) = true
    /\ SanctuaryForm.pick_geometry (SanctuaryForm.mode st) (SanctuaryForm.form st)
       = inr f1
    /\ SanctuaryForm.compact_hours (opening_hours f1) = Some hrs
    /\ payload = SanctuaryForm.set_opening_hours hrs f1
    /\ st' = SanctuaryForm.setForm (fun _ => payload) st
    /\ ids = SanctuaryForm.assigned st.
Proof.
  unfold SanctuaryForm.handleSubmit.
  destruct (truthy (JStr (trim (name (SanctuaryForm.form st))))) eqn:Hn;
    [ | discriminate]. cbn [negb].
  destruct (truthy (latitude (SanctuaryForm.form st))) eqn:Hlat;
    [ | discriminate].
  destruct (truthy (longitude (SanctuaryForm.form st))) eqn:Hlng;
    [ | discriminate]. cbn [negb orb].
  destruct (SanctuaryForm.pick_geometry _ _) as [msg | f1] eqn:Hg;
    [discriminate | ].
  destruct (SanctuaryForm.compact_hours _) as [hrs | ] eqn:Hh; [ | discriminate].
  intros H. injection H as <- <- <-. exists f1, hrs. repeat split; auto.
Qed.

(** The other way round: the checks passed, the geometry picked and the
    week complete give a save. *)
Lemma handleSubmit_saves (st : SanctuaryForm.State) (f1 : Sanctuary)
      (hrs : gmap string hval) :
  truthy (JStr (trim (name (SanctuaryForm.form st)))) = true ->
  truthy (latitude (SanctuaryForm.form st)) = true ->
  truthy (longitude (SanctuaryForm.form st)) = true ->
  SanctuaryForm.pick_geometry (SanctuaryForm.mode st) (SanctuaryForm.form st)
  = inr f1 ->
  SanctuaryForm.compact_hours (opening_hours f1) = Some hrs ->
  SanctuaryForm.handleSubmit st
  = (SanctuaryForm.Saved (SanctuaryForm.set_opening_hours hrs f1)
                         (SanctuaryForm.assigned st),
     SanctuaryForm.setForm (fun _ => SanctuaryForm.set_opening_hours hrs f1) st).
Proof.
  intros Hn Hlat Hlng Hg Hh. unfold SanctuaryForm.handleSubmit.
  rewrite Hn, Hlat, Hlng. cbn [negb orb]. rewrite Hg, Hh. reflexivity.
Qed.

Lemma nullish_truthy (v d : jsval) : truthy v = true -> nullish v d = v.
Proof. destruct v; simpl; congruence. Qed.

(** X3.  The form object is assigned to in place, so after a save the
    state holds the compact strings.  A second submit of that state
    (the drawer stays open when the insert is refused) saves again with
    the same geometry, and stores "undefined-undefined" for every
    weekday. *)
Theorem second_submit_garbles_hours (st st' : SanctuaryForm.State)
        (payload : Sanctuary) (ids : list string) :
  SanctuaryForm.handleSubmit st = (SanctuaryForm.Saved payload ids, st') ->
  exists payload' st'',
    SanctuaryForm.handleSubmit st' = (SanctuaryForm.Saved payload' ids, st'')
    /\ radius_km payload' = radius_km payload
    /\ boundary payload' = boundary payload
    /\ forall k, k ∈ SanctuaryForm.keys ->
                 opening_hours payload !! k
                 = (fun h => HStr (SanctuaryForm.compact h))
                     <$> opening_hours (SanctuaryForm.form st) !! k
                 /\ opening_hours payload' !! k = Some (HStr "undefined-undefined").
Proof.
  intros H.
  apply handleSubmit_saved_inv in H
    as (f1 & hrs & Hn & Hlat & Hlng & Hg & Hh & -> & -> & ->).
  assert (Hsame : opening_hours f1 = opening_hours (SanctuaryForm.form st)
                  /\ name f1 = name (SanctuaryForm.form st)
                  /\ latitude f1 = latitude (SanctuaryForm.form st)
                  /\ longitude f1 = longitude (SanctuaryForm.form st)).
  { apply pick_geometry_inr in Hg as [(_ & _ & ->) | (_ & _ & ->)];
      repeat split; reflexivity. }
  destruct Hsame as (Hoh & Hname & Hla & Hlo).
  assert (Hkeys : forall k, k ∈ SanctuaryForm.keys ->
            exists h, opening_hours f1 !! k = Some h
                      /\ hrs !! k = Some (HStr (SanctuaryForm.compact h))).
  { intros k Hk. pose proof (compact_hours_lookup _ _ Hh k) as Hl.
    destruct (decide (k ∈ SanctuaryForm.keys)); [ | contradiction].
    destruct (compact_fold_Some _ _ _ _ Hh k Hk) as [h Hk'].
    rewrite Hk' in Hl. eauto. }
  destruct (compact_hours_complete hrs) as [hrs' Hh'].
  { intros k Hk. destruct (Hkeys k Hk) as (h & _ & Hk'). eauto. }
  set (p := SanctuaryForm.set_opening_hours hrs f1).
  assert (Hg' : SanctuaryForm.pick_geometry (SanctuaryForm.mode st) p
                = inr (SanctuaryForm.set_opening_hours hrs f1)).
  { apply pick_geometry_inr in Hg as [(Hm & Ht & ->) | (Hm & Ht & ->)];
      unfold SanctuaryForm.pick_geometry, p; simpl.
    - rewrite Hm, Ht. reflexivity.
    - destruct (String.eqb (SanctuaryForm.mode st) "radius") eqn:E;
        [apply String.eqb_eq in E; contradiction | ].
      rewrite Ht. reflexivity. }
  exists (SanctuaryForm.set_opening_hours hrs' p),
         (SanctuaryForm.setForm
            (fun _ => SanctuaryForm.set_opening_hours hrs' p)
            (SanctuaryForm.setForm (fun _ => p) st)).
  split.
  - apply (handleSubmit_saves (SanctuaryForm.setForm (fun _ => p) st) p hrs');
      cbn [SanctuaryForm.form SanctuaryForm.setForm SanctuaryForm.mode].
    + unfold p. cbn [name SanctuaryForm.set_opening_hours]. now rewrite Hname.
    + unfold p. cbn [latitude SanctuaryForm.set_opening_hours]. now rewrite Hla.
    + unfold p. cbn [longitude SanctuaryForm.set_opening_hours]. now rewrite Hlo.
    + exact Hg'.
    + exact Hh'.
  - split; [reflexivity | ]. split; [reflexivity | ].
    intros k Hk. destruct (Hkeys k Hk) as (h & Hk1 & Hk2). simpl.
    split.
    + rewrite Hk2, <- Hoh, Hk1. reflexivity.
    + pose proof (compact_hours_lookup _ _ Hh' k) as Hl.
      destruct (decide (k ∈ SanctuaryForm.keys)); [ | contradiction].
      rewrite Hl, Hk2. reflexivity.
Qed.

Lemma second_submit_garbles_hours_witness :
  exists payload' st'',
    SanctuaryForm.handleSubmit MoreScenarios.once
    = (SanctuaryForm.Saved payload' ["u-9"], st'')
    /\ opening_hours payload' !! "mon" = Some (HStr "undefined-undefined").
Proof.
  destruct MoreScenarios.first_submit as [[msg | payload ids | ] st'] eqn:E;
    try (vm_compute in E; discriminate).
  assert (Hids : ids = ["u-9"]) by (vm_compute in E; congruence).
  assert (Hst : st' = MoreScenarios.once)
    by (unfold MoreScenarios.once; rewrite E; reflexivity).
  subst ids.
  destruct (second_submit_garbles_hours FormScenario.editing st' payload _ E)
    as (payload' & st'' & H & _ & _ & Hk).
  exists payload', st''. rewrite <- Hst. split; [exact H | ].
  apply Hk. vm_compute. repeat constructor.
Defined.

(** The form opened on any row has the seven weekdays. *)
Lemma init_week_complete (sanctuary : Sanctuary) (joined : option (list Assignment)) :
  FormControls.week_complete (SanctuaryForm.init sanctuary joined).
Proof.
  intros k Hk. simpl. rewrite lookup_fmap, lookup_toHoursObj.
  destruct (decide (k ∈ SanctuaryForm.keys)); [simpl; eauto | contradiction].
Qed.

(** X4.  A row that the form saved opens in the mode it was saved in
    (polygon when it has a boundary, radius otherwise), and saving it
    again without an edit hands over the same id, name, position, radius
    and boundary. *)
Theorem reopened_row_saves_same_geometry (st st' : SanctuaryForm.State)
        (payload : Sanctuary) (ids : list string)
        (joined : option (list Assignment)) :
  SanctuaryForm.handleSubmit st = (SanctuaryForm.Saved payload ids, st') ->
  SanctuaryForm.mode (SanctuaryForm.init payload joined)
  = (if strict_eq (boundary payload) JNull then "radius" else "polygon")
  /\ exists again st'',
       SanctuaryForm.handleSubmit (SanctuaryForm.init payload joined)
       = (SanctuaryForm.Saved again
            (SanctuaryForm.assigned (SanctuaryForm.init payload joined)), st'')
       /\ id again = id payload /\ name again = name payload
       /\ latitude again = latitude payload
       /\ longitude again = longitude payload
       /\ radius_km again = radius_km payload
       /\ boundary again = boundary payload.
Proof.
  intros H.
  apply handleSubmit_saved_inv in H
    as (f1 & hrs & Hn & Hlat & Hlng & Hg & Hh & -> & _ & _).
  set (p := SanctuaryForm.set_opening_hours hrs f1).
  set (re := SanctuaryForm.init p joined).
  destruct (compact_hours_complete (opening_hours (SanctuaryForm.form re)))
    as [hrs' Hh']; [apply init_week_complete | ].
  assert (Hfields : name f1 = name (SanctuaryForm.form st)
                    /\ latitude f1 = latitude (SanctuaryForm.form st)
                    /\ longitude f1 = longitude (SanctuaryForm.form st)).
  { apply pick_geometry_inr in Hg as [(_ & _ & ->) | (_ & _ & ->)];
      repeat split; reflexivity. }
  destruct Hfields as (Hname & Hla & Hlo).
  assert (Hlat' : latitude (SanctuaryForm.form re) = latitude f1)
    by (simpl; apply nullish_truthy; congruence).
  assert (Hlng' : longitude (SanctuaryForm.form re) = longitude f1)
    by (simpl; apply nullish_truthy; congruence).
  assert (Hid' : id (SanctuaryForm.form re) = id f1)
    by (simpl; destruct (id f1); reflexivity).
  apply pick_geometry_inr in Hg as [(Hm & Ht & Hf1) | (Hm & Ht & Hf1)].
  - (* saved in radius mode: no boundary, the radius is kept *)
    assert (Hb : boundary f1 = JNull) by (rewrite Hf1; reflexivity).
    assert (Hr : truthy (radius_km f1) = true) by (rewrite Hf1; exact Ht).
    split; [simpl; rewrite Hb; reflexivity | ].
    assert (Hg' : SanctuaryForm.pick_geometry (SanctuaryForm.mode re)
                    (SanctuaryForm.form re)
                  = inr (SanctuaryForm.set_boundary JNull (SanctuaryForm.form re))).
    { unfold SanctuaryForm.pick_geometry. simpl. rewrite Hb. simpl.
      rewrite (nullish_truthy _ _ Hr), Hr. reflexivity. }
    eexists _, _. split.
    + apply (handleSubmit_saves re
               (SanctuaryForm.set_boundary JNull (SanctuaryForm.form re)) hrs');
        try exact Hg'; try exact Hh'.
      * simpl. rewrite Hname. exact Hn.
      * rewrite Hlat', Hla. exact Hlat.
      * rewrite Hlng', Hlo. exact Hlng.
    + simpl. rewrite Hb, (nullish_truthy _ _ Hr).
      repeat split; try reflexivity.
      * destruct (id f1); reflexivity.
      * apply nullish_truthy. congruence.
      * apply nullish_truthy. congruence.
  - (* saved in polygon mode: the boundary is kept, no radius *)
    assert (Hb : truthy (boundary f1) = true) by (rewrite Hf1; exact Ht).
    assert (Hr : radius_km f1 = JNull) by (rewrite Hf1; reflexivity).
    assert (Hnn : strict_eq (boundary f1) JNull = false)
      by (destruct (boundary f1); simpl in *; congruence).
    split; [simpl; rewrite Hb, Hnn; reflexivity | ].
    assert (Hg' : SanctuaryForm.pick_geometry (SanctuaryForm.mode re)
                    (SanctuaryForm.form re)
                  = inr (SanctuaryForm.set_radius_km JNull (SanctuaryForm.form re))).
    { unfold SanctuaryForm.pick_geometry. simpl. rewrite Hb. simpl.
      rewrite (nullish_truthy _ _ Hb), Hb. reflexivity. }
    eexists _, _. split.
    + apply (handleSubmit_saves re
               (SanctuaryForm.set_radius_km JNull (SanctuaryForm.form re)) hrs');
        try exact Hg'; try exact Hh'.
      * simpl. rewrite Hname. exact Hn.
      * rewrite Hlat', Hla. exact Hlat.
      * rewrite Hlng', Hlo. exact Hlng.
    + simpl. rewrite Hr. repeat split; try reflexivity.
      * destruct (id f1); reflexivity.
      * apply nullish_truthy. congruence.
      * apply nullish_truthy. congruence.
      * destruct (boundary f1); reflexivity.
Qed.

(** Sanctuary B switched to the quadrilateral, saved, opened again. *)
Lemma reopened_row_saves_same_geometry_witness :
  exists payload again st'',
    SanctuaryForm.mode (SanctuaryForm.init payload None) = "polygon"
    /\ SanctuaryForm.handleSubmit (SanctuaryForm.init payload None)
       = (SanctuaryForm.Saved again [], st'')
    /\ radius_km again = JNull
    /\ boundary again = JStr (SanctuaryForm.JSON_stringify FormScenario.quad).
Proof.
  destruct (SanctuaryForm.handleSubmit (FormScenario.switched FormScenario.quad))
    as [[msg | payload ids | ] st'] eqn:E;
    try (vm_compute in E; discriminate).
  destruct (reopened_row_saves_same_geometry _ _ _ _ None E)
    as (Hmode & again & st'' & Hs & _ & _ & _ & _ & Hr & Hb).
  assert (Hp : radius_km payload = JNull
               /\ boundary payload
                  = JStr (SanctuaryForm.JSON_stringify FormScenario.quad)).
  { vm_compute in E. injection E as <- _ _. split; reflexivity. }
  destruct Hp as [Hp1 Hp2].
  exists payload, again, st''. rewrite Hmode, Hr, Hb, Hp1, Hp2.
  repeat split. exact Hs.
Defined.

(** X5.  A submit that is turned down with an alert has changed
    nothing: the state after it, entered radius and drawn boundary
    included, is the state before it, and the alert names the first
    check that failed. *)
Theorem rejected_submit_keeps_form (st st' : SanctuaryForm.State) (msg : string) :
  SanctuaryForm.handleSubmit st = (SanctuaryForm.Alerted msg, st') ->
  st' = st
  /\ (truthy (JStr (trim (name (SanctuaryForm.form st)))) = false ->
        msg = "Name required")
  /\ (truthy (JStr (trim (name (SanctuaryForm.form st)))) = true ->
        truthy (latitude (SanctuaryForm.form st))
        && truthy (longitude (SanctuaryForm.form st)) = false ->
        msg = "Location required")
  /\ (truthy (JStr (trim (name (SanctuaryForm.form st)))) = true ->
        truthy (latitude (SanctuaryForm.form st))
        && truthy (longitude (SanctuaryForm.form st)) = true ->
        msg = if String.eqb (SanctuaryForm.mode st) "radius"
              then "Radius required" else "Draw polygon first").
Proof.
  unfold SanctuaryForm.handleSubmit, SanctuaryForm.pick_geometry.
  destruct (truthy (JStr (trim (name (SanctuaryForm.form st))))) eqn:Hn;
    cbn [negb].
  - destruct (truthy (latitude (SanctuaryForm.form st))) eqn:Hlat;
      destruct (truthy (longitude (SanctuaryForm.form st))) eqn:Hlng;
      cbn [negb orb andb];
      try (intros H; injection H as <- <-; repeat split; congruence).
    destruct (String.eqb (SanctuaryForm.mode st) "radius").
    + destruct (truthy (radius_km (SanctuaryForm.form st))); cbn [negb].
      * destruct (SanctuaryForm.compact_hours _); discriminate.
      * intros H; injection H as <- <-; repeat split; congruence.
    + destruct (truthy (boundary (SanctuaryForm.form st))); cbn [negb].
      * destruct (SanctuaryForm.compact_hours _); discriminate.
      * intros H; injection H as <- <-; repeat split; congruence.
  - intros H; injection H as <- <-; repeat split; congruence.
Qed.

(** With the polygon mode chosen and nothing drawn, the radius entered
    before is still in the form after the alert. *)
Lemma rejected_submit_keeps_form_witness :
  exists st',
    SanctuaryForm.handleSubmit (SanctuaryForm.setMode "polygon" FormScenario.editing)
    = (SanctuaryForm.Alerted "Draw polygon first", st')
    /\ radius_km (SanctuaryForm.form st') = JNum 5.
Proof.
  destruct (SanctuaryForm.handleSubmit
              (SanctuaryForm.setMode "polygon" FormScenario.editing))
    as [[msg | payload ids | ] st'] eqn:E;
    try (vm_compute in E; discriminate).
  destruct (rejected_submit_keeps_form _ _ _ E) as (-> & _ & _ & Hmsg).
  rewrite Hmsg by reflexivity.
  eexists. split; reflexivity.
Defined.

(** X7.  The seven weekdays are in the form when it opens and stay in it
    through the address search, the drawer, the pickers, the mode switch
    and a submit; on such a state a submit never throws. *)
Theorem week_stays_complete :
  (forall sanctuary joined,
      FormControls.week_complete (SanctuaryForm.init sanctuary joined))
  /\ (forall st,
         FormControls.week_complete st ->
         fst (SanctuaryForm.handleSubmit st) <> SanctuaryForm.Thrown
         /\ FormControls.week_complete (snd (SanctuaryForm.handleSubmit st)))
  /\ (forall st gj cid key md,
         FormControls.week_complete st ->
         FormControls.week_complete (SanctuaryForm.drawer_onSave gj st)
         /\ FormControls.week_complete (FormControls.toggleCaregiver cid st)
         /\ FormControls.week_complete (FormControls.toggleService key st)
         /\ FormControls.week_complete (SanctuaryForm.setMode md st))
  /\ (forall toFixed6 reply (sys : Sys SanctuaryForm.State),
         FormControls.week_complete (ui sys) ->
         FormControls.week_complete
           (ui (run (SanctuaryForm.geocode toFixed6 reply) sys))).
Proof.
  split; [exact init_week_complete | ]. split; [ | split].
  - intros st Hw. unfold SanctuaryForm.handleSubmit.
    destruct (negb (truthy (JStr (trim (name (SanctuaryForm.form st))))));
      [split; [discriminate | exact Hw] | ].
    destruct (negb (truthy (latitude (SanctuaryForm.form st)))
              || negb (truthy (longitude (SanctuaryForm.form st))));
      [split; [discriminate | exact Hw] | ].
    destruct (SanctuaryForm.pick_geometry _ _) as [msg | f1] eqn:Hg;
      [split; [discriminate | exact Hw] | ].
    assert (Hoh : opening_hours f1 = opening_hours (SanctuaryForm.form st)).
    { apply pick_geometry_inr in Hg as [(_ & _ & ->) | (_ & _ & ->)]; reflexivity. }
    destruct (compact_hours_complete (opening_hours f1)) as [hrs Hh];
      [rewrite Hoh; exact Hw | ].
    rewrite Hh. split; [discriminate | ].
    intros k Hk. simpl.
    pose proof (compact_hours_lookup _ _ Hh k) as Hl.
    destruct (decide (k ∈ SanctuaryForm.keys)); [ | contradiction].
    rewrite Hl, Hoh. destruct (Hw k Hk) as [h ->]. simpl. eauto.
  - intros st gj cid key md Hw. repeat split; exact Hw.
  - intros toFixed6 reply sys Hw.
    unfold SanctuaryForm.geocode, run, bind, get. simpl.
    destruct (negb (String.eqb (trim (SanctuaryForm.address (ui sys))) ""));
      simpl; [ | exact Hw].
    destruct reply as [ | [ | p rest]]; exact Hw.
Qed.

Lemma week_stays_complete_witness :
  fst (SanctuaryForm.handleSubmit
         (FormControls.toggleService "shelter"
            (SanctuaryForm.drawer_onSave FormScenario.quad FormScenario.editing)))
  <> SanctuaryForm.Thrown.
Proof.
  destruct week_stays_complete as (Hinit & Hsub & Hkeep & _).
  apply Hsub.
  apply (Hkeep _ FormScenario.quad "" "shelter" "").
  apply (Hkeep _ FormScenario.quad "" "shelter" "").
  apply Hinit.
Defined.

(** ** The pickers *)

Lemma existsb_eqb_In (x : string) (p : list string) :
  existsb (String.eqb x) p = true <-> In x p.
Proof.
  rewrite existsb_exists. split.
  - intros (y & Hy & E). apply String.eqb_eq in E. now subst.
  - intros H. exists x. split; [exact H | apply String.eqb_refl].
Qed.

Lemma In_toggled (x y : string) (p : list string) :
  In y (FormControls.toggled x p)
  <-> (y <> x /\ In y p) \/ (y = x /\ ~ In x p).
Proof.
  unfold FormControls.toggled.
  destruct (existsb (String.eqb x) p) eqn:E.
  - apply existsb_eqb_In in E. rewrite filter_In. split.
    + intros [Hy Hne]. left. split; [ | exact Hy].
      intros ->. rewrite String.eqb_refl in Hne. discriminate.
    + intros [[Hne Hy] | [-> Hn]]; [ | contradiction].
      split; [exact Hy | ]. apply String.eqb_neq in Hne. now rewrite Hne.
  - assert (Hn : ~ In x p).
    { intros H. apply existsb_eqb_In in H. congruence. }
    rewrite in_app_iff. simpl. split.
    + intros [Hy | [<- | []]]; [ | right; auto].
      left. split; [ | exact Hy]. intros ->. contradiction.
    + intros [[_ Hy] | [-> _]]; auto.
Qed.

Lemma NoDup_toggled (x : string) (p : list string) :
  List.NoDup p -> List.NoDup (FormControls.toggled x p).
Proof.
  intros Hp. unfold FormControls.toggled.
  destruct (existsb (String.eqb x) p) eqn:E.
  - now apply List.NoDup_filter.
  - assert (Hn : ~ In x p).
    { intros H. apply existsb_eqb_In in H. congruence. }
    clear E. induction Hp as [ | a p Ha Hp IH]; simpl.
    + constructor; [intros [] | constructor].
    + constructor.
      * rewrite in_app_iff. intros [H | [<- | []]]; [contradiction | ].
        apply Hn. left. reflexivity.
      * apply IH. intros H. apply Hn. right. exact H.
Qed.

Lemma toggled_twice_absent (x : string) (p : list string) :
  ~ In x p -> FormControls.toggled x (FormControls.toggled x p) = p.
Proof.
  intros Hn. unfold FormControls.toggled at 2.
  destruct (existsb (String.eqb x) p) eqn:E;
    [apply existsb_eqb_In in E; contradiction | ].
  unfold FormControls.toggled.
  assert (Hin : existsb (String.eqb x) (p ++ [x]) = true).
  { apply existsb_eqb_In, in_app_iff. right. left. reflexivity. }
  rewrite Hin, List.filter_app. simpl. rewrite String.eqb_refl. simpl.
  rewrite app_nil_r. clear E Hin.
  induction p as [ | a p IH]; simpl; [reflexivity | ].
  destruct (String.eqb a x) eqn:E.
  - apply String.eqb_eq in E. subst. exfalso. apply Hn. left. reflexivity.
  - simpl. f_equal. apply IH. intros H. apply Hn. right. exact H.
Qed.

Lemma toggled_flips (x : string) (p : list string) :
  (In x (FormControls.toggled x p) <-> ~ In x p)
  /\ (forall y, y <> x -> (In y (FormControls.toggled x p) <-> In y p)).
Proof.
  split.
  - rewrite In_toggled. split.
    + intros [[Hne _] | [_ Hn]]; [congruence | exact Hn].
    + intros Hn. right. auto.
  - intros y Hne. rewrite In_toggled. tauto.
Qed.

(** X6.  Ticking a caregiver or a service flips that one entry and no
    other, keeps the list free of duplicates, touches nothing else of
    the state, and ticking an entry that was off twice gives the list
    back as it was. *)
Theorem toggle_flips_one (st : SanctuaryForm.State) (x : string) :
  let ids := SanctuaryForm.assigned st in
  let ids' := SanctuaryForm.assigned (FormControls.toggleCaregiver x st) in
  let svc := services (details (SanctuaryForm.form st)) in
  let after := SanctuaryForm.form (FormControls.toggleService x st) in
  ((In x ids' <-> ~ In x ids)
   /\ (forall y, y <> x -> (In y ids' <-> In y ids))
   /\ (List.NoDup ids -> List.NoDup ids')
   /\ (~ In x ids ->
       SanctuaryForm.assigned
         (FormControls.toggleCaregiver x (FormControls.toggleCaregiver x st)) = ids)
   /\ SanctuaryForm.form (FormControls.toggleCaregiver x st) = SanctuaryForm.form st)
  /\ ((In x (services (details after)) <-> ~ In x svc)
      /\ (forall y, y <> x -> (In y (services (details after)) <-> In y svc))
      /\ (List.NoDup svc -> List.NoDup (services (details after)))
      /\ (~ In x svc ->
          services (details (SanctuaryForm.form
            (FormControls.toggleService x (FormControls.toggleService x st)))) = svc)
      /\ radius_km after = radius_km (SanctuaryForm.form st)
      /\ boundary after = boundary (SanctuaryForm.form st)
      /\ opening_hours after = opening_hours (SanctuaryForm.form st)
      /\ SanctuaryForm.assigned (FormControls.toggleService x st)
         = SanctuaryForm.assigned st).
Proof.
  cbn zeta. split; simpl.
  - destruct (toggled_flips x (SanctuaryForm.assigned st)) as [Hx Hy].
    split; [exact Hx | ]. split; [exact Hy | ].
    split; [apply NoDup_toggled | ].
    split; [apply toggled_twice_absent | reflexivity].
  - destruct (toggled_flips x (services (details (SanctuaryForm.form st))))
      as [Hx Hy].
    split; [exact Hx | ]. split; [exact Hy | ].
    split; [apply NoDup_toggled | ].
    split; [apply toggled_twice_absent | ].
    repeat split.
Qed.

Lemma toggle_flips_one_witness :
  SanctuaryForm.assigned
    (FormControls.toggleCaregiver "u-4"
       (FormControls.toggleCaregiver "u-4" FormScenario.editing))
  = ["u-9"]
  /\ List.NoDup (SanctuaryForm.assigned
                   (FormControls.toggleCaregiver "u-4" FormScenario.editing)).
Proof.
  destruct (toggle_flips_one FormScenario.editing "u-4")
    as [(_ & _ & Hnd & Htwice & _) _].
  split.
  - apply Htwice. simpl. intros [H | []]. discriminate.
  - apply Hnd. simpl. repeat constructor. intros [].
Defined.

(** ** The dashboard's writes *)

Lemma strict_eq_refl (v : jsval) : strict_eq v v = true.
Proof.
  destruct v as [ | b | x | s]; simpl.
  - reflexivity.
  - now destruct b.
  - apply Qeq_bool_iff. reflexivity.
  - apply String.eqb_refl.
Qed.

Lemma strict_eq_common (a b c : jsval) :
  strict_eq a b = true -> strict_eq a c = true -> strict_eq b c = true.
Proof.
  destruct a as [ | x | x | x], b as [ | y | y | y], c as [ | z | z | z];
    simpl; try discriminate; auto.
  - destruct x, y, z; simpl; auto.
  - rewrite !Qeq_bool_iff. intros H1 H2. rewrite <- H1, <- H2. reflexivity.
  - rewrite !String.eqb_eq. congruence.
Qed.

(** The caregivers of a sanctuary after its rows were dropped and the
    chosen ones linked. *)
Lemma assigned_after_relink (sid : jsval) (ids : list string) (l : list Assignment) :
  map caregiver_id
      (List.filter (fun a => strict_eq (sanctuary_id a) sid)
         (List.filter (fun a => negb (strict_eq (sanctuary_id a) sid)) l
          ++ map (fun cid => {| caregiver_id := cid; sanctuary_id := sid |}) ids))
  = ids.
Proof.
  rewrite List.filter_app, map_app.
  assert (H1 : List.filter (fun a => strict_eq (sanctuary_id a) sid)
                 (List.filter (fun a => negb (strict_eq (sanctuary_id a) sid)) l) = []).
  { induction l as [ | a l IH]; simpl; [reflexivity | ].
    destruct (strict_eq (sanctuary_id a) sid) eqn:E; simpl; [exact IH | ].
    rewrite E. exact IH. }
  rewrite H1. simpl.
  induction ids as [ | c ids IH]; simpl; [reflexivity | ].
  rewrite strict_eq_refl. simpl. now rewrite IH.
Qed.

Lemma assigned_elsewhere_relink (sid other : jsval) (ids : list string)
      (l : list Assignment) :
  strict_eq sid other = false ->
  List.filter (fun a => strict_eq (sanctuary_id a) other)
    (List.filter (fun a => negb (strict_eq (sanctuary_id a) sid)) l
     ++ map (fun cid => {| caregiver_id := cid; sanctuary_id := sid |}) ids)
  = List.filter (fun a => strict_eq (sanctuary_id a) other) l.
Proof.
  intros Hne. rewrite List.filter_app.
  assert (H2 : List.filter (fun a => strict_eq (sanctuary_id a) other)
                 (map (fun cid => {| caregiver_id := cid; sanctuary_id := sid |}) ids)
               = []).
  { induction ids as [ | c ids IH]; simpl; [reflexivity | ]. now rewrite Hne. }
  rewrite H2, app_nil_r.
  induction l as [ | a l IH]; simpl; [reflexivity | ].
  destruct (strict_eq (sanctuary_id a) sid) eqn:E; simpl.
  - destruct (strict_eq (sanctuary_id a) other) eqn:E'; [ | exact IH].
    rewrite (strict_eq_common _ _ _ E E') in Hne. discriminate.
  - now rewrite IH.
Qed.

(** The assignment rows after an administrator's save of a stored
    sanctuary that the backend serves. *)
Lemma saveSanctuary_assignments (sys : Sys Admin.State) (payload : Sanctuary)
      (ids : list string) :
  Admin.myRole (ui sys) = Some "admin" ->
  truthy (id payload) = true ->
  outcomes (backend sys) = [] ->
  caregiver_assignments (db (backend (run (Admin.saveSanctuary payload ids) sys)))
  = List.filter (fun a => negb (strict_eq (sanctuary_id a) (id payload)))
                (caregiver_assignments (db (backend sys)))
    ++ map (fun cid => {| caregiver_id := cid; sanctuary_id := id payload |}) ids.
Proof.
  intros Hrole Hid Hout.
  unfold Admin.saveSanctuary, Admin.link_caregivers, Admin.not_admin,
    run, bind, get, await, request, setState, ret.
  rewrite Hrole, Hid. simpl. rewrite Hout. simpl.
  destruct ids; simpl; [now rewrite app_nil_r | reflexivity].
Qed.

(** X8.  A served save of a stored sanctuary replaces its caregivers
    wholesale: afterwards the caregivers joined to it are the chosen
    ids, in the order chosen, and those of every other sanctuary are as
    before. *)
Theorem saveSanctuary_replaces_caregivers (sys : Sys Admin.State)
        (payload : Sanctuary) (ids : list string) :
  Admin.myRole (ui sys) = Some "admin" ->
  truthy (id payload) = true ->
  outcomes (backend sys) = [] ->
  let after := db (backend (run (Admin.saveSanctuary payload ids) sys)) in
  Dashboard.assigned_to (id payload) after = ids
  /\ forall other,
       strict_eq (id payload) other = false ->
       Dashboard.assigned_to other after
       = Dashboard.assigned_to other (db (backend sys)).
Proof.
  intros Hrole Hid Hout after. unfold Dashboard.assigned_to, after.
  rewrite (saveSanctuary_assignments sys payload ids Hrole Hid Hout). split.
  - apply assigned_after_relink.
  - intros other Hne. now rewrite assigned_elsewhere_relink.
Qed.

Lemma saveSanctuary_replaces_caregivers_witness :
  let after := db (backend (run (Admin.saveSanctuary FormScenario.haven ["u-9"; "u-7"])
                                (MoreScenarios.dashboard []))) in
  Dashboard.assigned_to (JStr "b-1") MoreScenarios.staffed = ["u-7"; "u-8"]
  /\ Dashboard.assigned_to (JStr "b-1") after = ["u-9"; "u-7"]
  /\ Dashboard.assigned_to (JStr "b-2") after = ["u-8"].
Proof.
  destruct (saveSanctuary_replaces_caregivers (MoreScenarios.dashboard [])
              FormScenario.haven ["u-9"; "u-7"] eq_refl eq_refl eq_refl)
    as [Hown Hother].
  split; [reflexivity | ]. split; [exact Hown | ].
  rewrite (Hother (JStr "b-2") eq_refl). reflexivity.
Defined.

(** X9.  The save of a stored sanctuary never reports a failure: whatever
    the backend answers to its requests, no alert is shown, the drawer
    is closed and a refetch is asked for.  When the update and the
    delete of the old links are served and the insert of the new links
    is refused, the sanctuary is left without caregivers. *)
Theorem saveSanctuary_update_is_silent (sys : Sys Admin.State)
        (payload : Sanctuary) (ids : list string) :
  Admin.myRole (ui sys) = Some "admin" ->
  truthy (id payload) = true ->
  let after := run (Admin.saveSanctuary payload ids) sys in
  alerts after = alerts sys
  /\ Admin.editSanctuary (ui after) = None
  /\ Admin.refreshKey (ui after) = (Admin.refreshKey (ui sys) + 1)%Z
  /\ (forall msg rest,
         ids <> [] ->
         outcomes (backend sys) = None :: None :: Some msg :: rest ->
         Dashboard.assigned_to (id payload) (db (backend after)) = []
         /\ outcomes (backend after) = rest).
Proof.
  intros Hrole Hid.
  unfold Admin.saveSanctuary, Admin.link_caregivers, Admin.not_admin,
    run, bind, get, await, request, setState, ret.
  rewrite Hrole, Hid. simpl.
  split; [ | split; [ | split]].
  - destruct (outcomes (backend sys)) as [ | [m | ] [ | [m' | ] [ | [m'' | ] r]]];
      destruct ids; reflexivity.
  - destruct (outcomes (backend sys)) as [ | [m | ] [ | [m' | ] [ | [m'' | ] r]]];
      destruct ids; reflexivity.
  - destruct (outcomes (backend sys)) as [ | [m | ] [ | [m' | ] [ | [m'' | ] r]]];
      destruct ids; reflexivity.
  - intros msg rest Hne Hout.
    destruct ids as [ | c ids]; [contradiction | ].
    rewrite Hout. simpl. split; [ | reflexivity].
    unfold Dashboard.assigned_to. simpl.
    induction (caregiver_assignments (db (backend sys))) as [ | a l IH];
      simpl; [reflexivity | ].
    destruct (strict_eq (sanctuary_id a) (id payload)) eqn:E; simpl;
      [exact IH | ].
    rewrite E. exact IH.
Qed.

Lemma saveSanctuary_update_is_silent_witness :
  let after := run (Admin.saveSanctuary FormScenario.haven ["u-9"])
                   (MoreScenarios.dashboard [None; None; Some "timeout"]) in
  alerts after = []
  /\ Admin.editSanctuary (ui after) = None
  /\ Dashboard.assigned_to (JStr "b-1") (db (backend after)) = [].
Proof.
  destruct (saveSanctuary_update_is_silent
              (MoreScenarios.dashboard [None; None; Some "timeout"])
              FormScenario.haven ["u-9"] eq_refl eq_refl)
    as (Ha & He & _ & Hlost).
  split; [exact Ha | ]. split; [exact He | ].
  apply (Hlost "timeout" []); [discriminate | reflexivity].
Defined.

(** X10.  When the insert of a new sanctuary is refused the
    administrator is told the backend's message and nothing else
    happens: no table changes, no caregiver link is asked for, the
    drawer stays open and no refetch is triggered. *)
Theorem saveSanctuary_refused_insert (sys : Sys Admin.State)
        (payload : Sanctuary) (ids : list string) (msg : string)
        (rest : list (option string)) :
  Admin.myRole (ui sys) = Some "admin" ->
  truthy (id payload) = false ->
  outcomes (backend sys) = Some msg :: rest ->
  let after := run (Admin.saveSanctuary payload ids) sys in
  alerts after = alerts sys ++ [msg]
  /\ db (backend after) = db (backend sys)
  /\ trace (backend after) = trace (backend sys) ++ [InsertSanctuary payload]
  /\ ui after = ui sys.
Proof.
  intros Hrole Hid Hout.
  unfold Admin.saveSanctuary, Admin.insert_sanctuary, Admin.not_admin,
    run, bind, get, await, request, alert, ret.
  rewrite Hrole, Hid. simpl. rewrite Hout. simpl. repeat split.
Qed.

Lemma saveSanctuary_refused_insert_witness :
  let after := run (Admin.saveSanctuary MoreScenarios.newcomer ["u-7"])
                   (MoreScenarios.dashboard [Some "duplicate key"]) in
  alerts after = ["duplicate key"]
  /\ Admin.editSanctuary (ui after) = Some FormScenario.haven.
Proof.
  destruct (saveSanctuary_refused_insert
              (MoreScenarios.dashboard [Some "duplicate key"])
              MoreScenarios.newcomer ["u-7"] "duplicate key" []
              eq_refl eq_refl eq_refl)
    as (Ha & _ & _ & Hui).
  split; [exact Ha | ]. rewrite Hui. reflexivity.
Defined.

(** X11.  A served save of a new sanctuary appends the payload under the
    id the backend gave it, leaves the stored rows as they were, and
    links the chosen caregivers to that new id. *)
Theorem saveSanctuary_inserts_and_links (sys : Sys Admin.State)
        (payload : Sanctuary) (ids : list string) :
  Admin.myRole (ui sys) = Some "admin" ->
  truthy (id payload) = false ->
  outcomes (backend sys) = [] ->
  let before := db (backend sys) in
  let after := run (Admin.saveSanctuary payload ids) sys in
  Backend.sanctuaries (db (backend after))
  = Backend.sanctuaries before ++ [with_id (fresh_id before) payload]
  /\ caregiver_assignments (db (backend after))
     = caregiver_assignments before
       ++ map (fun cid => {| caregiver_id := cid; sanctuary_id := fresh_id before |}) ids
  /\ alerts after = alerts sys
  /\ Admin.editSanctuary (ui after) = None.
Proof.
  intros Hrole Hid Hout.
  unfold Admin.saveSanctuary, Admin.insert_sanctuary, Admin.link_caregivers,
    Admin.not_admin, run, bind, get, await, request, setState, ret.
  rewrite Hrole, Hid. simpl. rewrite Hout. simpl.
  destruct ids; simpl; repeat split; try reflexivity.
  now rewrite app_nil_r.
Qed.

Lemma saveSanctuary_inserts_and_links_witness :
  let after := run (Admin.saveSanctuary MoreScenarios.newcomer ["u-7"])
                   (MoreScenarios.dashboard []) in
  map id (Backend.sanctuaries (db (backend after)))
  = [JStr "b-1"; JStr "b-2"; JStr "2"]
  /\ Dashboard.assigned_to (JStr "2") (db (backend after)) = ["u-7"].
Proof.
  destruct (saveSanctuary_inserts_and_links (MoreScenarios.dashboard [])
              MoreScenarios.newcomer ["u-7"] eq_refl eq_refl eq_refl)
    as (Hs & Ha & _).
  unfold Dashboard.assigned_to. rewrite Hs, Ha. split; reflexivity.
Defined.

(** The role a profile reads as after a served role switch. *)
Lemma profile_role_switched (d : Db) (pid role uid : string) :
  profile_role (exec (UpdateProfileRole pid role) d) uid
  = if String.eqb uid pid
    then (fun _ => role) <$> profile_role d uid
    else profile_role d uid.
Proof.
  unfold profile_role. simpl.
  induction (profiles d) as [ | p l IH]; simpl.
  - now destruct (String.eqb uid pid).
  - destruct (String.eqb (p_id p) pid) eqn:Ep; simpl.
    + destruct (String.eqb (p_id p) uid) eqn:Eu; simpl.
      * apply String.eqb_eq in Ep, Eu. subst.
        now rewrite String.eqb_refl.
      * exact IH.
    + destruct (String.eqb (p_id p) uid) eqn:Eu; simpl; [ | exact IH].
      apply String.eqb_eq in Eu. subst. now rewrite Ep.
Qed.

(** X12.  An administrator's role switch that the backend serves gives
    the target profile the new role and leaves the role of every other
    profile as it was (a target that has no profile gets none); served
    or refused, no alert is shown and a refetch is asked for, and a
    refused switch changes no table. *)
Theorem switchRole_sets_one_role (sys : Sys Admin.State) (pid role : string) :
  Admin.myRole (ui sys) = Some "admin" ->
  let after := run (Admin.switchRole pid role) sys in
  (serves_next (backend sys) = true ->
   forall uid,
     profile_role (db (backend after)) uid
     = if String.eqb uid pid
       then (fun _ => role) <$> profile_role (db (backend sys)) uid
       else profile_role (db (backend sys)) uid)
  /\ (serves_next (backend sys) = false -> db (backend after) = db (backend sys))
  /\ alerts after = alerts sys
  /\ Admin.refreshKey (ui after) = (Admin.refreshKey (ui sys) + 1)%Z
  /\ trace (backend after) = trace (backend sys) ++ [UpdateProfileRole pid role].
Proof.
  intros Hrole.
  unfold Admin.switchRole, Admin.not_admin, serves_next,
    run, bind, get, await, request, setState, ret.
  rewrite Hrole. simpl.
  destruct (outcomes (backend sys)) as [ | [m | ] rest]; simpl;
    (split; [ | split; [ | repeat split]]);
    try discriminate; try reflexivity;
    intros _ uid; apply profile_role_switched.
Qed.

Lemma switchRole_sets_one_role_witness :
  let after := run (Admin.switchRole "u-9" "caregiver") (MoreScenarios.dashboard []) in
  profile_role (db (backend after)) "u-9" = Some "caregiver"
  /\ profile_role (db (backend after)) "u-7" = Some "caregiver"
  /\ profile_role (db (backend after)) "nobody" = None.
Proof.
  destruct (switchRole_sets_one_role (MoreScenarios.dashboard []) "u-9" "caregiver"
              eq_refl) as (Hserved & _).
  cbv zeta. rewrite !(Hserved eq_refl). repeat split.
Defined.

(** X13.  An administrator's delete asks for one thing, the delete of
    the sanctuary row: declined in the dialog it does nothing at all;
    confirmed and served it leaves no row with that id and every other
    row in place, and it issues no request on the caregiver links. *)
Theorem deleteSanctuary_removes_one_row (sys : Sys Admin.State) (sid : jsval) :
  Admin.myRole (ui sys) = Some "admin" ->
  Admin.deleteSanctuary sid false sys = (tt, sys)
  /\ (let after := run (Admin.deleteSanctuary sid true) sys in
      trace (backend after) = trace (backend sys) ++ [DeleteSanctuary sid]
      /\ alerts after = alerts sys
      /\ (serves_next (backend sys) = true ->
          forall s,
            In s (Backend.sanctuaries (db (backend after)))
            <-> In s (Backend.sanctuaries (db (backend sys)))
                /\ strict_eq (id s) sid = false)).
Proof.
  intros Hrole.
  unfold Admin.deleteSanctuary, Admin.not_admin, serves_next,
    run, bind, get, await, request, setState, ret.
  rewrite Hrole. simpl. split; [reflexivity | ].
  destruct (outcomes (backend sys)) as [ | [m | ] rest]; simpl;
    (split; [reflexivity | ]); (split; [reflexivity | ]);
    try discriminate;
    intros _ s; rewrite filter_In, negb_true_iff; reflexivity.
Qed.

Lemma deleteSanctuary_removes_one_row_witness :
  let after := run (Admin.deleteSanctuary (JStr "b-2") true)
                   (MoreScenarios.dashboard []) in
  In FormScenario.haven (Backend.sanctuaries (db (backend after)))
  /\ ~ In FormScenario.draft (Backend.sanctuaries (db (backend after)))
  /\ trace (backend after) = [DeleteSanctuary (JStr "b-2")].
Proof.
  destruct (deleteSanctuary_removes_one_row (MoreScenarios.dashboard [])
              (JStr "b-2") eq_refl) as (_ & Htrace & _ & Hrows).
  split; [ | split; [ | exact Htrace]].
  - apply (Hrows eq_refl). split; [left; reflexivity | reflexivity].
  - intros H. apply (Hrows eq_refl) in H as [_ H]. discriminate H.
Defined.

(** ** Deleting a sighting, both revisions *)

(** X14.  For the signed-in account and any non-empty answer, blank or
    not, the current handler logs the answer as typed, then asks for
    the delete, and takes every marker with that id off the map without
    an alert, whatever the backend answered; when the delete is
    refused the row is still in the table. *)
Theorem handleDelete_unconditional (s : Sighting) (reason : string) (u : User)
        (sys : Sys MapView.State) :
  MapView.user (ui sys) = Some u ->
  reason <> "" ->
  let after := run (MapView.handleDelete s (Some reason)) sys in
  trace (backend after)
  = trace (backend sys)
      ++ [InsertDeletionLog {| dl_sighting_id := sg_id s; dl_user_id := u_id u;
                               dl_reason := reason |};
          DeleteSighting (sg_id s)]
  /\ (forall row,
         In row (MapView.sightings (ui after))
         <-> In row (MapView.sightings (ui sys)) /\ sg_id row <> sg_id s)
  /\ alerts after = alerts sys
  /\ (forall first msg rest,
         outcomes (backend sys) = first :: Some msg :: rest ->
         Backend.sightings (db (backend after))
         = Backend.sightings (db (backend sys))).
Proof.
  intros Hu Hr after. split; [exact (handleDelete_issues_delete s reason u sys Hu Hr) | ].
  unfold after, MapView.handleDelete, run, bind, get. simpl.
  rewrite Hu. simpl.
  destruct (String.eqb reason "") eqn:E;
    [apply String.eqb_eq in E; contradiction | ].
  simpl. unfold await, request, setState.
  split; [ | split].
  - intros row.
    destruct (outcomes (backend sys)) as [ | [m | ] [ | [m' | ] rest]]; simpl;
      rewrite filter_In, negb_true_iff, String.eqb_neq; reflexivity.
  - destruct (outcomes (backend sys)) as [ | [m | ] [ | [m' | ] rest]]; reflexivity.
  - intros first msg rest Hout. rewrite Hout.
    destruct first; reflexivity.
Qed.

(** A reason of two spaces, both requests refused: the marker is gone
    from the map and the row is in the table. *)
Lemma handleDelete_unconditional_witness :
  let sys := MoreScenarios.map_page [Some "denied"; Some "denied"] in
  let after := run (MapView.handleDelete DeleteScenario.cat (Some "  ")) sys in
  MapView.sightings (ui after) = [MoreScenarios.kitten]
  /\ Backend.sightings (db (backend after))
     = [DeleteScenario.cat; MoreScenarios.kitten]
  /\ alerts after = [].
Proof.
  assert (Hr : "  " <> "") by discriminate.
  destruct (handleDelete_unconditional DeleteScenario.cat "  " DeleteScenario.owner
              (MoreScenarios.map_page [Some "denied"; Some "denied"]) eq_refl Hr)
    as (_ & _ & Ha & Hdb).
  split; [reflexivity | ]. split; [ | exact Ha].
  exact (Hdb (Some "denied") "denied" [] eq_refl).
Defined.

(** The first revision, log refused: the table and the map keep the
    row. *)
Lemma handleDelete_v1_aborts_witness :
  let sys := MoreScenarios.map_page [Some "denied"] in
  let after := run (MapViewV1.handleDelete DeleteScenario.cat (Some "duplicate")) sys in
  In DeleteScenario.cat (Backend.sightings (db (backend after)))
  /\ In DeleteScenario.cat (MapView.sightings (ui after)).
Proof.
  destruct (handleDelete_v1_aborts DeleteScenario.cat (Some "duplicate")
              (MoreScenarios.map_page [Some "denied"]) "denied" [] eq_refl)
    as (Hdb & Hui & _).
  cbv zeta. rewrite Hdb, Hui. split; left; reflexivity.
Defined.

Lemma trim_nonempty (r : string) : trim r <> "" -> r <> "".
Proof. intros H ->. apply H. reflexivity. Qed.

(** X16.  The first revision asks for a reason that is more than blanks:
    a dismissed dialog or an answer of white space only gets the alert
    and no request.  With a reason, the log row carries it trimmed; when
    the log insert is served and the delete refused, the log row is
    written all the same while the sighting stays in the table and on
    the map, and the user is told to try again. *)
Theorem handleDelete_v1_reason_and_refused_delete (s : Sighting) (u : User)
        (sys : Sys MapView.State) :
  MapView.user (ui sys) = Some u ->
  (forall answer,
      answer = None \/ (exists r, answer = Some r /\ trim r = "") ->
      MapViewV1.handleDelete s answer sys
      = (tt, {| backend := backend sys; ui := ui sys;
                alerts := alerts sys ++ ["Deletion cancelled: reason is required."];
                console := console sys |}))
  /\ (forall r msg rest,
         trim r <> "" ->
         outcomes (backend sys) = None :: Some msg :: rest ->
         let after := run (MapViewV1.handleDelete s (Some r)) sys in
         deletion_logs (db (backend after))
         = deletion_logs (db (backend sys))
             ++ [ {| dl_sighting_id := sg_id s; dl_user_id := u_id u;
                     dl_reason := trim r |} ]
         /\ Backend.sightings (db (backend after))
            = Backend.sightings (db (backend sys))
         /\ ui after = ui sys
         /\ alerts after = alerts sys ++ ["Failed to delete sighting. Try again."]).
Proof.
  intros Hu. split.
  - intros answer Hblank.
    unfold MapViewV1.handleDelete, bind, get, alert. simpl. rewrite Hu.
    destruct Hblank as [-> | (r & -> & Ht)]; [reflexivity | ].
    rewrite Ht. simpl. rewrite orb_true_r. reflexivity.
  - intros r msg rest Ht Hout.
    unfold MapViewV1.handleDelete, run, bind, get, alert, console_error,
      await, request. simpl. rewrite Hu.
    destruct (String.eqb r "") eqn:Er;
      [apply String.eqb_eq in Er; apply trim_nonempty in Ht; contradiction | ].
    destruct (String.eqb (trim r) "") eqn:Et;
      [apply String.eqb_eq in Et; contradiction | ].
    simpl. rewrite Hout. simpl. repeat split.
Qed.

Lemma handleDelete_v1_reason_and_refused_delete_witness :
  alerts (run (MapViewV1.handleDelete DeleteScenario.cat (Some "   "))
              (MoreScenarios.map_page []))
  = ["Deletion cancelled: reason is required."]
  /\ let after := run (MapViewV1.handleDelete DeleteScenario.cat (Some " gone "))
                      (MoreScenarios.map_page [None; Some "denied"]) in
     deletion_logs (db (backend after))
     = [ {| dl_sighting_id := "s-1"; dl_user_id := "u-1"; dl_reason := "gone" |} ]
     /\ In DeleteScenario.cat (Backend.sightings (db (backend after))).
Proof.
  split.
  - destruct (handleDelete_v1_reason_and_refused_delete DeleteScenario.cat
                DeleteScenario.owner (MoreScenarios.map_page []) eq_refl)
      as [Hblank _].
    unfold run. rewrite (Hblank (Some "   ")); [reflexivity | ].
    right. exists "   ". split; reflexivity.
  - destruct (handleDelete_v1_reason_and_refused_delete DeleteScenario.cat
                DeleteScenario.owner (MoreScenarios.map_page [None; Some "denied"])
                eq_refl) as [_ Hdel].
    assert (Ht : trim " gone " <> "") by (vm_compute; discriminate).
    destruct (Hdel " gone " "denied" [] Ht eq_refl) as (Hlog & Hrows & _).
    cbv zeta. rewrite Hlog, Hrows. split; [reflexivity | left; reflexivity].
Defined.

(** ** Reporting a sighting *)

(** X17.  A submitted report changes the page in one case only: the
    insert was served.  Then the returned row is the last marker of the
    map and the form is back to its defaults, visibility "public"
    included, without an alert.  In every other case (not signed in, the
    photo upload or the insert refused) the page, the filled-in form
    included, is as before and exactly one alert is shown. *)
Theorem report_changes_page_only_when_saved
        (toString : Q -> string) (getPublicUrl : string -> string)
        (now : Z) (uploadErr : option string) (reply : string + Sighting)
        (pg pg' : Report.Page) (shown : list string) (calls : list Report.Call) :
  Report.handleSubmit toString getPublicUrl now uploadErr reply pg
  = Report.Done pg' shown calls ->
  (exists newRow,
      reply = inr newRow /\ shown = []
      /\ MapView.sightings (Report.map pg')
         = MapView.sightings (Report.map pg) ++ [newRow]
      /\ MapView.user (Report.map pg') = MapView.user (Report.map pg)
      /\ Report.clickedLocation pg' = None /\ Report.notes pg' = ""
      /\ Report.isInjured pg' = false /\ Report.photoFile pg' = None
      /\ Report.visibility pg' = "public")
  \/ (pg' = pg /\ exists msg, shown = [msg]
      /\ (MapView.user (Report.map pg) = None -> msg = "Please log in first")).
Proof.
  unfold Report.handleSubmit.
  destruct (MapView.user (Report.map pg)) as [u | ] eqn:Hu.
  - destruct (Report.clickedLocation pg) as [at_ | ]; [ | discriminate].
    destruct (Report.photoFile pg) as [f | ].
    + destruct uploadErr as [e | ].
      * intros H. injection H as <- <- <-. right. split; [reflexivity | ].
        eexists. split; [reflexivity | discriminate].
      * destruct reply as [msg | newRow]; intros H; injection H as <- <- <-.
        -- right. split; [reflexivity | ].
           eexists. split; [reflexivity | discriminate].
        -- left. exists newRow. simpl. repeat split. exact Hu.
    + destruct reply as [msg | newRow]; intros H; injection H as <- <- <-.
      * right. split; [reflexivity | ].
        eexists. split; [reflexivity | discriminate].
      * left. exists newRow. simpl. repeat split. exact Hu.
  - intros H. injection H as <- <- <-. right. split; [reflexivity | ].
    eexists. split; reflexivity.
Qed.

Lemma report_changes_page_only_when_saved_witness :
  exists pg',
    Report.handleSubmit MoreScenarios.show MoreScenarios.url 1700 None
      (inr MoreScenarios.returned) MoreScenarios.report
    = Report.Done pg' []
        [Report.Upload "1700-cat.jpg";
         Report.Insert
           {| Report.n_latitude := "38"; Report.n_longitude := "20";
              Report.n_notes := "limping"; Report.n_animals := 1;
              Report.n_behaviour := "injured";
              Report.n_photo_url := JStr "https://files.example.org/1700-cat.jpg";
              Report.n_user_id := "u-1"; Report.n_visibility := "caregiver" |}]
    /\ MapView.sightings (Report.map pg')
       = [DeleteScenario.cat; MoreScenarios.kitten; MoreScenarios.returned]
    /\ Report.visibility pg' = "public".
Proof.
  eexists. split; [vm_compute; reflexivity | ].
  match goal with
  | |- MapView.sightings (Report.map ?p) = _ /\ _ =>
      destruct (report_changes_page_only_when_saved MoreScenarios.show
                  MoreScenarios.url 1700 None (inr MoreScenarios.returned)
                  MoreScenarios.report p [] _ eq_refl)
        as [(row & Hrow & _ & Hs & _ & _ & _ & _ & _ & Hv) | (_ & msg & Hm & _)];
      [ | discriminate Hm]
  end.
  injection Hrow as <-. split; [exact Hs | exact Hv].
Defined.

(** X18.  A report is inserted at most once per submit, never without a
    signed-in account and never after a refused photo upload; the
    inserted row carries that account's id as its owner, the notes and
    the visibility chosen in the form, one animal, "injured" or
    "normal" after the tick box, and a photo URL exactly when a photo
    was chosen. *)
Theorem report_insert_is_owned
        (toString : Q -> string) (getPublicUrl : string -> string)
        (now : Z) (uploadErr : option string) (reply : string + Sighting)
        (pg : Report.Page) (row : Report.NewSighting) :
  In row (Report.inserts
            (Report.handleSubmit toString getPublicUrl now uploadErr reply pg)) ->
  Report.inserts (Report.handleSubmit toString getPublicUrl now uploadErr reply pg)
  = [row]
  /\ (exists u, MapView.user (Report.map pg) = Some u
                /\ Report.n_user_id row = u_id u)
  /\ Report.n_visibility row = Report.visibility pg
  /\ Report.n_notes row = Report.notes pg
  /\ Report.n_animals row = 1%Z
  /\ Report.n_behaviour row = (if Report.isInjured pg then "injured" else "normal")
  /\ (Report.photoFile pg = None <-> Report.n_photo_url row = JNull)
  /\ (Report.photoFile pg <> None -> uploadErr = None).
Proof.
  unfold Report.handleSubmit.
  destruct (MapView.user (Report.map pg)) as [u | ]; [ | intros []].
  destruct (Report.clickedLocation pg) as [at_ | ]; [ | intros []].
  destruct (Report.photoFile pg) as [f | ].
  - destruct uploadErr as [e | ]; [intros [] | ].
    destruct reply as [msg | newRow]; simpl; intros [<- | []]; simpl;
      repeat split; eauto; try discriminate.
  - destruct reply as [msg | newRow]; simpl; intros [<- | []]; simpl;
      repeat split; eauto; try discriminate; try congruence.
Qed.

Lemma report_insert_is_owned_witness :
  exists row,
    Report.inserts
      (Report.handleSubmit MoreScenarios.show MoreScenarios.url 1700 None
         (inl "quota") MoreScenarios.report) = [row]
    /\ Report.n_user_id row = "u-1"
    /\ Report.n_visibility row = "caregiver".
Proof.
  eexists
    {| Report.n_latitude := "38"; Report.n_longitude := "20";
       Report.n_notes := "limping"; Report.n_animals := 1;
       Report.n_behaviour := "injured";
       Report.n_photo_url := JStr "https://files.example.org/1700-cat.jpg";
       Report.n_user_id := "u-1"; Report.n_visibility := "caregiver" |}.
  match goal with
  | |- Report.inserts ?r = [?row] /\ _ =>
      assert (Hin : In row (Report.inserts r)) by (vm_compute; left; reflexivity)
  end.
  destruct (report_insert_is_owned _ _ _ _ _ _ _ Hin)
    as (Hone & (u & Hu & Hid) & Hv & _).
  split; [exact Hone | ]. split; [reflexivity | exact Hv].
Defined.

(** ** The location button *)

(** X19.  "Use my location" writes the position into the form before it
    looks the address up, and the lookup is best effort: when it throws
    or gives no name, the position stays written, the address field is
    as it was and no alert is shown.  Without a position the form is
    untouched and one alert is shown. *)
Theorem useMyLocation_best_effort (toFixed6 : Q -> string)
        (geo : FormControls.Geolocation) (reverse : FormControls.Reverse)
        (sys : Sys SanctuaryForm.State) :
  let after := run (FormControls.useMyLocation toFixed6 geo reverse) sys in
  match geo with
  | FormControls.Position lat lon =>
      SanctuaryForm.form (ui after)
      = SanctuaryForm.set_position (JStr (toFixed6 lat)) (JStr (toFixed6 lon))
                                   (SanctuaryForm.form (ui sys))
      /\ alerts after = alerts sys
      /\ SanctuaryForm.address (ui after)
         = match reverse with
           | FormControls.ReverseAnswer (Some shown) =>
               if String.eqb shown "" then SanctuaryForm.address (ui sys) else shown
           | _ => SanctuaryForm.address (ui sys)
           end
  | _ => ui after = ui sys /\ length (alerts after) = S (length (alerts sys))
  end.
Proof.
  destruct geo as [ | | lat lon]; simpl.
  - split; [reflexivity | ]. rewrite length_app. simpl. lia.
  - split; [reflexivity | ]. rewrite length_app. simpl. lia.
  - unfold run, bind. simpl.
    destruct reverse as [ | [shown | ]]; simpl; auto.
    destruct (String.eqb shown ""); simpl; auto.
Qed.

(** ** The first revision of the form *)

(** X20.  In the first revision a drawn polygon never replaces the
    radius: a form opened on any row with a name and a position, given
    a drawn shape and submitted, hands over the shape's text as the
    boundary together with a radius that is not null (the row's, or 5),
    and the map draws such a row as the polygon. *)
Theorem first_revision_saves_both (row : Sanctuary)
        (joined : option (list Assignment)) (gj : BoundaryDrawer.GeoJSON) :
  name row <> "" ->
  truthy (latitude row) = true ->
  truthy (longitude row) = true ->
  exists payload,
    SanctuaryFormV1.handleSubmit
      (SanctuaryFormV1.drawer_onSave gj (SanctuaryFormV1.init row joined))
    = SanctuaryFormV1.Saved payload
        (SanctuaryFormV1.assigned (SanctuaryFormV1.init row joined))
    /\ SanctuaryFormV1.f_boundary payload = JStr (SanctuaryForm.JSON_stringify gj)
    /\ SanctuaryFormV1.f_radius_km payload = nullish (radius_km row) (JNum 5)
    /\ SanctuaryFormV1.f_radius_km payload <> JNull
    /\ MapView.render_zone (SanctuaryFormV1.zone_of payload)
       = MapView.GeoJSONLayer (SanctuaryFormV1.f_id payload)
                              (SanctuaryFormV1.f_boundary payload).
Proof.
  intros Hn Hlat Hlng. eexists. split.
  - unfold SanctuaryFormV1.handleSubmit. simpl.
    rewrite (nullish_truthy _ _ Hlat), (nullish_truthy _ _ Hlng), Hlat, Hlng.
    destruct (String.eqb (name row) "") eqn:E;
      [apply String.eqb_eq in E; contradiction | ].
    simpl. reflexivity.
  - simpl. repeat split.
    destruct (radius_km row); discriminate.
Qed.

Lemma first_revision_saves_both_witness :
  exists payload,
    SanctuaryFormV1.handleSubmit
      (SanctuaryFormV1.drawer_onSave FormScenario.quad MoreScenarios.editing_v1)
    = SanctuaryFormV1.Saved payload []
    /\ SanctuaryFormV1.f_radius_km payload = JNum 5
    /\ SanctuaryFormV1.f_boundary payload
       = JStr (SanctuaryForm.JSON_stringify FormScenario.quad).
Proof.
  assert (Hn : name FormScenario.haven <> "") by discriminate.
  destruct (first_revision_saves_both FormScenario.haven None FormScenario.quad
              Hn eq_refl eq_refl) as (payload & Hs & Hb & Hr & _).
  exists payload. split; [exact Hs | ]. split; [exact Hr | exact Hb].
Defined.
